(** * Verification of the asynchronous device control core

    Shallow embedding of [examples/advanced_features/advanced_driver.c]
    (module [AdvancedDriver]) and of the teardown path of
    [examples/async_demo/async_demo_example.c] (module [AsyncDemo]).

    Conventions of the embedding:
    - C integers are [Z]; a store into a [uint8_t] is written [u8 v].
    - [union data_packet] is one list of 64 bytes; the views [bytes],
      [frame.header] and [frame.payload] are accessors over that one list,
      so a write through one view is seen through the others.
    - Calls into the kernel (locking, URB submission, user copies) and calls
      through the callback pointers of the device record are appended to an
      event log, oldest first.  What such a call returns is an extra
      argument of the embedded function ([submit_ret], [not_copied]). *)

From Stdlib Require Import ZArith Lia Bool.
From stdpp Require Import base list.

Local Open Scope Z_scope.

(** * Kernel calls made on the teardown paths *)

Module Kapi.

Inductive urb_id : Set := CtrlUrb | BulkUrb.

Inductive kcall : Set :=
| usb_set_intfdata_null
| cancel_work_sync
| cancel_delayed_work_sync
| usb_kill_urb (u : urb_id)
| usb_free_urb (u : urb_id)
| usb_put_dev
| kfree_dev
| atomic_set_running (v : Z)
| kthread_stop
| wait_for_completion
| hrtimer_cancel
| del_timer_sync
| tasklet_kill.

End Kapi.

(** * The advanced driver *)

Module AdvancedDriver.

(** ** Constants of the kernel headers

    The values of [include/uapi/asm-generic/errno-base.h] and [errno.h];
    the driver only names them. *)
Definition ENOENT : Z := 2.
Definition ENOMEM : Z := 12.
Definition EFAULT : Z := 14.
Definition EBUSY : Z := 16.
Definition ENODEV : Z := 19.
Definition EINVAL : Z := 22.
Definition ECONNRESET : Z := 104.
Definition ESHUTDOWN : Z := 108.

(** ** Enumerations *)

Inductive device_state : Set :=
| STATE_IDLE
| STATE_CONNECTING
| STATE_CONNECTED
| STATE_TRANSFERRING
| STATE_ERROR.

Inductive cmd_type : Set :=
| CMD_READ
| CMD_WRITE
| CMD_CONTROL
| CMD_STATUS
| CMD_RESET.

Inductive result_t : Set :=
| RESULT_OK
| RESULT_BUSY
| RESULT_NOMEM
| RESULT_INVALID.

Definition state_value (s : device_state) : Z :=
  match s with
  | STATE_IDLE => 0
  | STATE_CONNECTING => 1
  | STATE_CONNECTED => 2
  | STATE_TRANSFERRING => 3
  | STATE_ERROR => -1
  end.

Definition cmd_value (c : cmd_type) : Z :=
  match c with
  | CMD_READ => 0x01
  | CMD_WRITE => 0x02
  | CMD_CONTROL => 0x03
  | CMD_STATUS => 0x04
  | CMD_RESET => 0xFF
  end.

Definition result_value (r : result_t) : Z :=
  match r with
  | RESULT_OK => 0
  | RESULT_BUSY => - EBUSY
  | RESULT_NOMEM => - ENOMEM
  | RESULT_INVALID => - EINVAL
  end.

Definition state_eqb (a b : device_state) : bool :=
  state_value a =? state_value b.

(** ** [union data_packet]: 64 bytes with aliased views *)

Abbreviation data_packet := (list Z).

Definition PACKET_SIZE : nat := 64.
Definition HEADER_SIZE : nat := 4.
Definition PAYLOAD_SIZE : nat := 60.

(** A value stored into a [uint8_t]. *)
Definition u8 (v : Z) : Z := v mod 256.

(** [pkt->frame.header[i]] read. *)
Definition header (pkt : data_packet) (i : nat) : Z := default 0 (pkt !! i).

(** [pkt->frame.header[i] = v]. *)
Definition set_header (i : nat) (v : Z) (pkt : data_packet) : data_packet :=
  <[i := u8 v]> pkt.

(** [pkt->frame.payload], the 60 bytes after the header. *)
Definition payload (pkt : data_packet) : list Z :=
  take PAYLOAD_SIZE (drop HEADER_SIZE pkt).

(** [memset(pkt, 0, sizeof( *pkt))]. *)
Definition memset_packet : data_packet := replicate PACKET_SIZE 0.

(** [memcpy(pkt->frame.payload, src, n)]: the first [n] bytes found at
    [src] land at offsets 4 .. 4+n of the storage. *)
Definition memcpy_payload (src : list Z) (n : Z) (pkt : data_packet)
  : data_packet :=
  list_inserts HEADER_SIZE (take (Z.to_nat n) src) pkt.

(** [*(uint32_t * )pkt->frame.payload] on a little-endian host. *)
Definition load_u32 (bs : list Z) : Z :=
  default 0 (bs !! 0%nat)
  + Z.shiftl (default 0 (bs !! 1%nat)) 8
  + Z.shiftl (default 0 (bs !! 2%nat)) 16
  + Z.shiftl (default 0 (bs !! 3%nat)) 24.

(** The 16-bit little-endian length field of the header. *)
Definition header_length (pkt : data_packet) : Z :=
  Z.lor (header pkt 2) (Z.shiftl (header pkt 3) 8).

(** ** Pointers *)

(** A [struct advanced_device *]: null, or the one device record. *)
Inductive dev_ptr : Set := NULL | DEV.

(** What a [void *] buffer argument points to: one of the two packet
    buffers of the device record (by reference), or memory outside it
    (by content). *)
Inductive buf_ptr : Type :=
| TxBytes
| RxBytes
| Extern (content : list Z).

(** A function pointer stored in the device record, by address. *)
Definition fnptr : Set := positive.

Inductive completion_fn : Set := bulk_complete | ctrl_complete.

(** ** Structures *)

Record device_config : Type := {
  timeout_ms : Z;
  retry_count : Z;
  auto_reconnect : bool
}.

Record urb : Type := {
  urb_status : Z;
  urb_context : dev_ptr;
  urb_pipe : Z;
  transfer_buffer : buf_ptr;
  transfer_buffer_length : Z;
  actual_length : Z;
  urb_complete : option completion_fn
}.

Record advanced_device : Type := {
  state : device_state;
  last_result : result_t;
  tx_buffer : data_packet;
  rx_buffer : data_packet;
  ctrl_raw : Z;
  config : device_config;
  bulk_in_addr : Z;
  bulk_out_addr : Z;
  bulk_in_size : Z;
  ctrl_urb : urb;
  bulk_urb : urb;
  on_connect : option fnptr;
  on_disconnect : option fnptr;
  on_data : option fnptr
}.

Definition set_state (s : device_state) (d : advanced_device) :=
  {| state := s; last_result := last_result d; tx_buffer := tx_buffer d;
     rx_buffer := rx_buffer d; ctrl_raw := ctrl_raw d; config := config d;
     bulk_in_addr := bulk_in_addr d; bulk_out_addr := bulk_out_addr d;
     bulk_in_size := bulk_in_size d; ctrl_urb := ctrl_urb d;
     bulk_urb := bulk_urb d; on_connect := on_connect d;
     on_disconnect := on_disconnect d; on_data := on_data d |}.

Definition set_last_result (r : result_t) (d : advanced_device) :=
  {| state := state d; last_result := r; tx_buffer := tx_buffer d;
     rx_buffer := rx_buffer d; ctrl_raw := ctrl_raw d; config := config d;
     bulk_in_addr := bulk_in_addr d; bulk_out_addr := bulk_out_addr d;
     bulk_in_size := bulk_in_size d; ctrl_urb := ctrl_urb d;
     bulk_urb := bulk_urb d; on_connect := on_connect d;
     on_disconnect := on_disconnect d; on_data := on_data d |}.

Definition set_tx_buffer (p : data_packet) (d : advanced_device) :=
  {| state := state d; last_result := last_result d; tx_buffer := p;
     rx_buffer := rx_buffer d; ctrl_raw := ctrl_raw d; config := config d;
     bulk_in_addr := bulk_in_addr d; bulk_out_addr := bulk_out_addr d;
     bulk_in_size := bulk_in_size d; ctrl_urb := ctrl_urb d;
     bulk_urb := bulk_urb d; on_connect := on_connect d;
     on_disconnect := on_disconnect d; on_data := on_data d |}.

Definition set_ctrl_raw (v : Z) (d : advanced_device) :=
  {| state := state d; last_result := last_result d; tx_buffer := tx_buffer d;
     rx_buffer := rx_buffer d; ctrl_raw := v; config := config d;
     bulk_in_addr := bulk_in_addr d; bulk_out_addr := bulk_out_addr d;
     bulk_in_size := bulk_in_size d; ctrl_urb := ctrl_urb d;
     bulk_urb := bulk_urb d; on_connect := on_connect d;
     on_disconnect := on_disconnect d; on_data := on_data d |}.

Definition set_bulk_urb (u : urb) (d : advanced_device) :=
  {| state := state d; last_result := last_result d; tx_buffer := tx_buffer d;
     rx_buffer := rx_buffer d; ctrl_raw := ctrl_raw d; config := config d;
     bulk_in_addr := bulk_in_addr d; bulk_out_addr := bulk_out_addr d;
     bulk_in_size := bulk_in_size d; ctrl_urb := ctrl_urb d;
     bulk_urb := u; on_connect := on_connect d;
     on_disconnect := on_disconnect d; on_data := on_data d |}.

(** ** The machine: the device record and the log of outward calls *)

Inductive event : Type :=
| EvSpinLock
| EvSpinUnlock
| EvOnConnect (f : fnptr)
| EvOnDisconnect (f : fnptr)
| EvOnData (f : fnptr) (buf : buf_ptr) (len : Z)
| EvSubmitUrb (u : urb) (mem : list Z) (ret : Z)
| EvCopyToUser (bytes : list Z)
| EvCopyFromUser (n : Z).

Record kernel : Type := {
  device : advanced_device;
  klog : list event
}.

Definition with_device (f : advanced_device -> advanced_device) (k : kernel)
  : kernel :=
  {| device := f (device k); klog := klog k |}.

Definition emit (e : event) (k : kernel) : kernel :=
  {| device := device k; klog := klog k ++ [e] |}.

(** The bytes a buffer pointer designates in the current store. *)
Definition deref (k : kernel) (p : buf_ptr) : list Z :=
  match p with
  | TxBytes => tx_buffer (device k)
  | RxBytes => rx_buffer (device k)
  | Extern c => c
  end.

(** Where the [data] argument of [send_command] points: into
    [dev->tx_buffer], [off] bytes from its start (by reference: what is
    read there is what the buffer holds when the read happens), or at
    memory that [send_command] does not write (by content). *)
Inductive data_ptr : Type :=
| DataTx (off : nat)
| DataOther (content : list Z).

(** The bytes found at [p] while [tx_buffer] holds [pkt]. *)
Definition read_data (pkt : data_packet) (p : data_ptr) : list Z :=
  match p with
  | DataTx off => drop off pkt
  | DataOther c => c
  end.

(** ** Kernel services used by the driver *)

(** [size_t] arithmetic wraps at 64 bits. *)
Definition size_t (v : Z) : Z := v mod 2 ^ 64.

(** Conversion to [int], 32 bits two's complement, and a store into a
    [u32] field. *)
Definition to_int (v : Z) : Z := (v + 2 ^ 31) mod 2 ^ 32 - 2 ^ 31.
Definition u32 (v : Z) : Z := v mod 2 ^ 32.

(** [usb_sndbulkpipe(udev, ep)]: the pipe is identified by its endpoint. *)
Definition usb_sndbulkpipe (ep : Z) : Z := ep.

(** [usb_fill_bulk_urb(urb, udev, pipe, buf, len, complete, context)];
    [len] is an [int] and [urb->transfer_buffer_length] a [u32]. *)
Definition usb_fill_bulk_urb (u : urb) (pipe : Z) (buf : buf_ptr) (len : Z)
    (fn : completion_fn) (ctx : dev_ptr) : urb :=
  {| urb_status := urb_status u; urb_context := ctx; urb_pipe := pipe;
     transfer_buffer := buf; transfer_buffer_length := u32 len;
     actual_length := actual_length u; urb_complete := Some fn |}.

(** [usb_submit_urb(urb, GFP_KERNEL)]: the call is logged together with the
    bytes its transfer buffer holds at that moment; [ret] is what the USB
    core answers. *)
Definition usb_submit_urb (u : urb) (ret : Z) (k : kernel) : Z * kernel :=
  (ret, emit (EvSubmitUrb u (deref k (transfer_buffer u)) ret) k).

(** ** Core functions *)

(** [send_command(dev, cmd, data, len)]; [data = None] is a null pointer.
    The copy reads [data] after the buffer was zeroed and the header
    stored, as the source does; where source and destination of the
    copy overlap, which C leaves undefined, the bytes read are those held
    before the copy. *)
Definition send_command (dev : dev_ptr) (cmd : cmd_type)
    (data : option data_ptr) (len : Z) (submit_ret : Z) (k : kernel)
  : Z * kernel :=
  match dev with
  | NULL => (- EINVAL, k)
  | DEV =>
    if state_eqb (state (device k)) STATE_ERROR then (- EINVAL, k)
    else
      let pkt := memset_packet in
      let pkt := set_header 0 0xAA pkt in
      let pkt := set_header 1 (cmd_value cmd) pkt in
      let pkt := set_header 2 (Z.land len 0xFF) pkt in
      let pkt := set_header 3 (Z.land (Z.shiftr len 8) 0xFF) pkt in
      let pkt :=
        match data with
        | Some src =>
          if (0 <? len) && (len <=? Z.of_nat PAYLOAD_SIZE)
          then memcpy_payload (read_data pkt src) len pkt
          else pkt
        | None => pkt
        end in
      let k := with_device (set_tx_buffer pkt) k in
      let k := with_device (set_state STATE_TRANSFERRING) k in
      let u := usb_fill_bulk_urb (bulk_urb (device k))
                 (usb_sndbulkpipe (bulk_out_addr (device k)))
                 TxBytes (to_int (size_t (4 + len))) bulk_complete DEV in
      let k := with_device (set_bulk_urb u) k in
      usb_submit_urb (bulk_urb (device k)) submit_ret k
  end.

(** [process_response(dev, packet)]; [packet = None] is a null pointer.
    [dev] is dereferenced unchecked by the source and is the device record
    of [k]. *)
Definition process_response (packet : option buf_ptr) (k : kernel)
  : result_t * kernel :=
  match packet with
  | None => (RESULT_INVALID, k)
  | Some p =>
    let pkt := deref k p in
    if negb (header pkt 0 =? 0xAA) then (RESULT_INVALID, k)
    else
      let cmd := header pkt 1 in
      if (cmd =? cmd_value CMD_READ) || (cmd =? cmd_value CMD_WRITE)
      then (RESULT_OK, k)
      else if cmd =? cmd_value CMD_STATUS
      then (RESULT_OK, with_device (set_ctrl_raw (load_u32 (payload pkt))) k)
      else if cmd =? cmd_value CMD_RESET
      then (RESULT_OK, with_device (set_state STATE_IDLE) k)
      else (RESULT_INVALID, k)
  end.

(** ** Completion callbacks *)

Definition bulk_complete_callback (u : urb) (k : kernel) : kernel :=
  match urb_context u with
  | NULL => k
  | DEV =>
    if urb_status u =? 0 then
      let k := with_device (set_state STATE_IDLE) k in
      let k := with_device (set_last_result RESULT_OK) k in
      match on_data (device k) with
      | Some f => emit (EvOnData f (transfer_buffer u) (actual_length u)) k
      | None => k
      end
    else if (urb_status u =? - ENOENT) || (urb_status u =? - ECONNRESET)
            || (urb_status u =? - ESHUTDOWN) then
      with_device (set_state STATE_ERROR) k
    else
      let k := with_device (set_state STATE_ERROR) k in
      with_device (set_last_result RESULT_INVALID) k
  end.

Definition ctrl_complete_callback (u : urb) (k : kernel) : kernel :=
  match urb_context u with
  | NULL => k
  | DEV =>
    if urb_status u =? 0
    then with_device (set_ctrl_raw (load_u32 (deref k (transfer_buffer u)))) k
    else k
  end.

(** ** Work handlers *)

Definition device_work_handler (submit_ret : Z) (k : kernel) : kernel :=
  let k := emit EvSpinLock k in
  let k :=
    if state_eqb (state (device k)) STATE_CONNECTED
    then snd (send_command DEV CMD_STATUS None 0 submit_ret k)
    else k in
  emit EvSpinUnlock k.

Definition device_delayed_work_handler (submit_ret : Z) (k : kernel)
  : kernel :=
  if state_eqb (state (device k)) STATE_ERROR
     && auto_reconnect (config (device k))
  then
    let k := with_device (set_state STATE_CONNECTING) k in
    snd (send_command DEV CMD_RESET None 0 submit_ret k)
  else k.

(** ** File operations

    The [struct file] side ([file->private_data]) is not part of the
    device record and is left out. *)

Definition device_open (k : kernel) : Z * kernel :=
  let k := emit EvSpinLock k in
  if negb (state_eqb (state (device k)) STATE_IDLE) then
    let k := emit EvSpinUnlock k in
    (- EBUSY, k)
  else
    let k := with_device (set_state STATE_CONNECTING) k in
    let k := emit EvSpinUnlock k in
    let k :=
      match on_connect (device k) with
      | Some f => emit (EvOnConnect f) k
      | None => k
      end in
    (0, k).

Definition device_release (k : kernel) : Z * kernel :=
  let k :=
    match on_disconnect (device k) with
    | Some f => emit (EvOnDisconnect f) k
    | None => k
    end in
  let k := emit EvSpinLock k in
  let k := with_device (set_state STATE_IDLE) k in
  let k := emit EvSpinUnlock k in
  (0, k).

(** [copy_to_user] answers [not_copied], the number of bytes it could not
    copy. *)
Definition device_read (count : Z) (not_copied : Z) (k : kernel)
  : Z * kernel :=
  if negb (state_eqb (state (device k)) STATE_CONNECTED) then (- ENODEV, k)
  else
    let to_copy := Z.min count (Z.of_nat PACKET_SIZE) in
    let k :=
      emit (EvCopyToUser (take (Z.to_nat (to_copy - not_copied))
                               (rx_buffer (device k)))) k in
    if negb (not_copied =? 0) then (- EFAULT, k)
    else (to_copy, k).

(** [user] is the memory behind the [__user] pointer; [copy_from_user]
    stores the bytes it could copy into [tx_buffer.frame.payload] and
    answers [not_copied]. *)
Definition device_write (user : list Z) (count : Z) (not_copied : Z)
    (submit_ret : Z) (k : kernel) : Z * kernel :=
  if negb (state_eqb (state (device k)) STATE_CONNECTED) then (- ENODEV, k)
  else
    let to_copy := Z.min count (Z.of_nat PAYLOAD_SIZE) in
    let k :=
      with_device
        (fun d => set_tx_buffer
                    (memcpy_payload user (to_copy - not_copied) (tx_buffer d))
                    d) k in
    let k := emit (EvCopyFromUser (to_copy - not_copied)) k in
    if negb (not_copied =? 0) then (- EFAULT, k)
    else
      let '(ret, k) := send_command DEV CMD_WRITE None to_copy submit_ret k in
      if ret <? 0 then (ret, k)
      else (to_copy, k).

(** ** Attach *)

Definition zero_urb : urb :=
  {| urb_status := 0; urb_context := NULL; urb_pipe := 0;
     transfer_buffer := Extern []; transfer_buffer_length := 0;
     actual_length := 0; urb_complete := None |}.

(** The record [advanced_probe] leaves behind on its success path:
    [kzalloc] zeroes every field, then state, configuration and endpoint
    parameters are assigned.  No callback pointer is assigned. *)
Definition advanced_probe (bulk_in bulk_out maxp : Z) : kernel :=
  {| device :=
       {| state := STATE_IDLE; last_result := RESULT_OK;
          tx_buffer := replicate PACKET_SIZE 0;
          rx_buffer := replicate PACKET_SIZE 0;
          ctrl_raw := 0;
          config := {| timeout_ms := 1000; retry_count := 3;
                       auto_reconnect := true |};
          bulk_in_addr := bulk_in; bulk_out_addr := bulk_out;
          bulk_in_size := maxp;
          ctrl_urb := zero_urb; bulk_urb := zero_urb;
          on_connect := None; on_disconnect := None; on_data := None |};
     klog := [] |}.

(** ** Detach *)

(** [advanced_disconnect(interface)]: [intfdata] is what
    [usb_get_intfdata] returns; the result is the sequence of kernel calls
    made on the device, in program order. *)
Definition advanced_disconnect (intfdata : dev_ptr) : list Kapi.kcall :=
  match intfdata with
  | NULL => []
  | DEV =>
    [ Kapi.usb_set_intfdata_null;
      Kapi.cancel_work_sync;
      Kapi.cancel_delayed_work_sync;
      Kapi.usb_kill_urb Kapi.CtrlUrb;
      Kapi.usb_kill_urb Kapi.BulkUrb;
      Kapi.usb_free_urb Kapi.CtrlUrb;
      Kapi.usb_free_urb Kapi.BulkUrb;
      Kapi.usb_put_dev;
      Kapi.kfree_dev ]
  end.

(** ** Entry points as the kernel invokes them

    [send_command] and [process_response] are [static] and are entered only
    through these. *)
Inductive call : Type :=
| CallOpen
| CallRelease
| CallRead (count not_copied : Z)
| CallWrite (user : list Z) (count not_copied submit_ret : Z)
| CallBulkComplete (u : urb)
| CallCtrlComplete (u : urb)
| CallWork (submit_ret : Z)
| CallDelayedWork (submit_ret : Z).

Definition exec (c : call) (k : kernel) : kernel :=
  match c with
  | CallOpen => snd (device_open k)
  | CallRelease => snd (device_release k)
  | CallRead count nc => snd (device_read count nc k)
  | CallWrite user count nc ret => snd (device_write user count nc ret k)
  | CallBulkComplete u => bulk_complete_callback u k
  | CallCtrlComplete u => ctrl_complete_callback u k
  | CallWork ret => device_work_handler ret k
  | CallDelayedWork ret => device_delayed_work_handler ret k
  end.

(** The machines the driver can be in: attached by [advanced_probe], then
    driven by any sequence of entry-point calls. *)
Inductive reachable : kernel -> Prop :=
| reach_probe bulk_in bulk_out maxp :
    reachable (advanced_probe bulk_in bulk_out maxp)
| reach_step c k :
    reachable k -> reachable (exec c k).

(** The completion statuses of a killed, unlinked or shut-down transfer. *)
Definition shutdown_status (s : Z) : Prop :=
  s = - ENOENT \/ s = - ECONNRESET \/ s = - ESHUTDOWN.

(** The states some statement of the driver assigns. *)
Definition assigned_state (s : device_state) : Prop :=
  s = STATE_IDLE \/ s = STATE_CONNECTING \/ s = STATE_TRANSFERRING
  \/ s = STATE_ERROR.

(** The three callback pointers of two device records agree. *)
Definition same_callbacks (d d' : advanced_device) : Prop :=
  on_connect d' = on_connect d /\ on_disconnect d' = on_disconnect d
  /\ on_data d' = on_data d.

(** Successive runs of the periodic delayed work, one USB answer each. *)
Definition ticks (answers : list Z) (k : kernel) : kernel :=
  foldl (fun k ret => device_delayed_work_handler ret k) k answers.

(** A logged event that is a URB submission sends a packet from
    [tx_buffer] whose 60 payload bytes are all zero. *)
Definition zero_payload_submission (e : event) : Prop :=
  match e with
  | EvSubmitUrb u mem _ =>
    transfer_buffer u = TxBytes /\ payload mem = replicate PAYLOAD_SIZE 0
  | _ => True
  end.

Definition is_submission (e : event) : bool :=
  match e with
  | EvSubmitUrb _ _ _ => true
  | _ => false
  end.

(** ** The wire format

    The command packet with command [cmd], length field [len] and payload
    bytes [body], zero-padded to the 64 bytes of the buffer. *)
Definition command_packet (cmd : cmd_type) (len : Z) (body : list Z)
  : data_packet :=
  [0xAA; cmd_value cmd; Z.land len 0xFF; Z.land (Z.shiftr len 8) 0xFF]
  ++ body ++ replicate (PAYLOAD_SIZE - length body) 0.

End AdvancedDriver.

(** * The asynchronous demo driver: teardown *)

Module AsyncDemo.

Record async_demo_dev : Type := {
  running : Z;
  kthread : option positive;
  irq : Z
}.

(** [async_demo_remove(pdev)]: returns its result, the device record and
    the kernel calls made, in program order.  The [free_irq] call is
    commented out in the source, as is the matching registration. *)
Definition async_demo_remove (dev : async_demo_dev)
  : Z * async_demo_dev * list Kapi.kcall :=
  let dev' := {| running := 0; kthread := kthread dev; irq := irq dev |} in
  let stop_thread :=
    match kthread dev' with
    | Some _ => [Kapi.kthread_stop; Kapi.wait_for_completion]
    | None => []
    end in
  (0, dev',
   [Kapi.atomic_set_running 0]
   ++ stop_thread
   ++ [ Kapi.hrtimer_cancel;
        Kapi.del_timer_sync;
        Kapi.tasklet_kill;
        Kapi.cancel_work_sync;
        Kapi.cancel_delayed_work_sync ]).

End AsyncDemo.

(** * The teardown order of the specification *)

Module Teardown.

(** The eight teardown steps the specification numbers (1) to (8). *)
Inductive teardown_step : Set :=
| StopInterruptSource
| DrainHrtimer
| DrainTimer
| DrainTasklet
| DrainWorkItems
| StopBackgroundTask
| DrainTransfer
| ReleaseRecord.

Definition spec_teardown_order : list teardown_step :=
  [ StopInterruptSource; DrainHrtimer; DrainTimer; DrainTasklet;
    DrainWorkItems; StopBackgroundTask; DrainTransfer; ReleaseRecord ].

Definition step_eqb (a b : teardown_step) : bool :=
  match a, b with
  | StopInterruptSource, StopInterruptSource
  | DrainHrtimer, DrainHrtimer
  | DrainTimer, DrainTimer
  | DrainTasklet, DrainTasklet
  | DrainWorkItems, DrainWorkItems
  | StopBackgroundTask, StopBackgroundTask
  | DrainTransfer, DrainTransfer
  | ReleaseRecord, ReleaseRecord => true
  | _, _ => false
  end.

(** The step a kernel call carries out, if any.  No call of either driver
    stops an interrupt source. *)
Definition step_of (c : Kapi.kcall) : option teardown_step :=
  match c with
  | Kapi.hrtimer_cancel => Some DrainHrtimer
  | Kapi.del_timer_sync => Some DrainTimer
  | Kapi.tasklet_kill => Some DrainTasklet
  | Kapi.cancel_work_sync | Kapi.cancel_delayed_work_sync =>
    Some DrainWorkItems
  | Kapi.kthread_stop | Kapi.wait_for_completion => Some StopBackgroundTask
  | Kapi.usb_kill_urb _ => Some DrainTransfer
  | Kapi.kfree_dev => Some ReleaseRecord
  | Kapi.usb_set_intfdata_null | Kapi.usb_free_urb _ | Kapi.usb_put_dev
  | Kapi.atomic_set_running _ => None
  end.

(** Consecutive calls that carry out the same step count once. *)
Fixpoint squash (l : list teardown_step) : list teardown_step :=
  match l with
  | [] => []
  | a :: l' =>
    match l' with
    | b :: _ => if step_eqb a b then squash l' else a :: squash l'
    | [] => [a]
    end
  end.

(** The steps a sequence of kernel calls performs, in order. *)
Definition steps (calls : list Kapi.kcall) : list teardown_step :=
  squash (omap step_of calls).

Definition is_drain (c : Kapi.kcall) : bool :=
  match step_of c with
  | Some ReleaseRecord | None => false
  | Some _ => true
  end.

Definition is_release (c : Kapi.kcall) : bool :=
  match c with
  | Kapi.kfree_dev => true
  | _ => false
  end.

(** No drain call is made once the device record has been released. *)
Fixpoint drains_before_release (calls : list Kapi.kcall) : bool :=
  match calls with
  | [] => true
  | c :: rest =>
    (if is_release c then forallb (fun c' => negb (is_drain c')) rest
     else true)
    && drains_before_release rest
  end.

End Teardown.

(** * The advanced driver: attach path *)

Module AdvancedAttach.
Import AdvancedDriver.






End AdvancedAttach.

(** * The advanced driver: checks over logs and buffers *)

Module AdvancedChecks.
Import AdvancedDriver.

(** Scans a piece of the log with the lock [held] or not.  The answer is
    whether the lock is held at the end, or [None] when the lock is taken
    twice, released without being held, or a callback of the device
    record is called while it is held. *)
Fixpoint lock_scan (held : bool) (evs : list event) : option bool :=
  match evs with
  | [] => Some held
  | EvSpinLock :: rest => if held then None else lock_scan true rest
  | EvSpinUnlock :: rest => if held then lock_scan false rest else None
  | EvOnConnect _ :: rest
  | EvOnDisconnect _ :: rest
  | EvOnData _ _ _ :: rest => if held then None else lock_scan held rest
  | EvSubmitUrb _ _ _ :: rest
  | EvCopyToUser _ :: rest
  | EvCopyFromUser _ :: rest => lock_scan held rest
  end.

(** The receive buffer, the configuration, the endpoint parameters and
    the control URB of two device records agree. *)
Definition same_fixed (d d' : advanced_device) : Prop :=
  rx_buffer d' = rx_buffer d /\ config d' = config d /\
  bulk_in_addr d' = bulk_in_addr d /\ bulk_out_addr d' = bulk_out_addr d /\
  bulk_in_size d' = bulk_in_size d /\ ctrl_urb d' = ctrl_urb d.

(** A byte. *)
Definition is_byte (b : Z) : Prop := 0 <= b < 256.

End AdvancedChecks.

(** * The asynchronous demo driver: handlers, attach and scheduling *)

Module AsyncDemoHandlers.
Import AsyncDemo.

(** The deferrable items of [struct async_demo_dev]. *)
Inductive item : Set :=
| ItWork
| ItDelayedWork
| ItTasklet
| ItTimer
| ItHrtimer.

(** Calls a handler makes. *)
Inductive hcall : Set :=
| msleep (ms : Z)
| mutex_lock
| mutex_unlock
| spin_lock_irqsave
| spin_unlock_irqrestore
| schedule_work
| schedule_delayed_work (ms : Z)
| tasklet_schedule
| mod_timer (ms : Z)
| hrtimer_forward_now (ms : Z)
| hrtimer_start (ms : Z).

Inductive hrtimer_restart : Set := HRTIMER_NORESTART | HRTIMER_RESTART.

(** [atomic_read(&dev->running)] used as a condition. *)
Definition is_running (dev : async_demo_dev) : bool :=
  negb (running dev =? 0).

Definition demo_work_handler (dev : async_demo_dev) : list hcall :=
  [msleep 100; mutex_lock; mutex_unlock].

Definition demo_delayed_work_handler (dev : async_demo_dev) : list hcall :=
  if is_running dev then [schedule_delayed_work 1000] else [].

Definition demo_tasklet_handler (dev : async_demo_dev) : list hcall :=
  [spin_lock_irqsave; spin_unlock_irqrestore; schedule_work].

Definition demo_timer_callback (dev : async_demo_dev) : list hcall :=
  [tasklet_schedule] ++ (if is_running dev then [mod_timer 500] else []).

Definition demo_hrtimer_callback (dev : async_demo_dev)
  : hrtimer_restart * list hcall :=
  if is_running dev then (HRTIMER_RESTART, [hrtimer_forward_now 100])
  else (HRTIMER_NORESTART, []).

(** [IRQ_HANDLED] is the result of both interrupt handlers; only their
    calls are kept.  Neither is registered: the [request_threaded_irq]
    call of [async_demo_probe] is commented out. *)
Definition demo_irq_handler (dev : async_demo_dev) : list hcall :=
  [tasklet_schedule].

Definition demo_irq_thread_handler (dev : async_demo_dev) : list hcall :=
  [msleep 10].

(** *** The kernel thread *)

Inductive thread_event : Set :=
| ThWork
| ThSleep (ms : Z)
| ThComplete.

(** [demo_kthread_func(data)].  [answers] are the successive results of
    [kthread_should_stop()]; the result is [None] while the thread has
    not returned within these answers, and otherwise its return value
    and what it did, in order. *)
Fixpoint demo_kthread_func (answers : list bool)
  : option (Z * list thread_event) :=
  match answers with
  | [] => None
  | true :: _ => Some (0, [ThComplete])
  | false :: rest =>
    match rest with
    | [] => None
    | true :: _ => Some (0, [ThWork; ThSleep 2000; ThComplete])
    | false :: rest' =>
      match demo_kthread_func rest' with
      | Some (ret, evs) => Some (ret, [ThWork; ThSleep 2000] ++ evs)
      | None => None
      end
    end
  end.

(** *** Attach *)

(** [async_demo_probe(pdev)].  [alloc_ok] says whether [devm_kzalloc]
    returns non-null; [thread] is what [kthread_run] returns: a task, or
    the error code behind an [IS_ERR] pointer.  The result is the return
    value, the device record the probe leaves attached (a record from
    [devm_kzalloc] does not outlive a failed probe) and the arming calls
    made, in program order.  [dev->irq] is never assigned and keeps the 0
    of [devm_kzalloc]. *)
Definition async_demo_probe (alloc_ok : bool) (thread : positive + Z)
  : Z * option async_demo_dev * list hcall :=
  if negb alloc_ok then (- AdvancedDriver.ENOMEM, None, [])
  else
    match thread with
    | inr err => (err, None, [])
    | inl task =>
      (0, Some {| running := 1; kthread := Some task; irq := 0 |},
       [mod_timer 500; hrtimer_start 100; schedule_delayed_work 1000])
    end.

(** *** What is pending

    The part of the kernel's bookkeeping the handlers and the teardown
    act on: which items are queued or armed, and which handlers have
    run. *)
Record sched : Type := {
  sdev : async_demo_dev;
  pend_work : bool;
  pend_delayed : bool;
  pend_tasklet : bool;
  pend_timer : bool;
  pend_hrtimer : bool;
  ran : list item
}.

Definition pending (it : item) (s : sched) : bool :=
  match it with
  | ItWork => pend_work s
  | ItDelayedWork => pend_delayed s
  | ItTasklet => pend_tasklet s
  | ItTimer => pend_timer s
  | ItHrtimer => pend_hrtimer s
  end.

Definition set_pending (it : item) (v : bool) (s : sched) : sched :=
  {| sdev := sdev s;
     pend_work := if it is ItWork then v else pend_work s;
     pend_delayed := if it is ItDelayedWork then v else pend_delayed s;
     pend_tasklet := if it is ItTasklet then v else pend_tasklet s;
     pend_timer := if it is ItTimer then v else pend_timer s;
     pend_hrtimer := if it is ItHrtimer then v else pend_hrtimer s;
     ran := ran s |}.

(** The effect of a handler's call: queueing or arming an item. *)
Definition do_hcall (c : hcall) (s : sched) : sched :=
  match c with
  | schedule_work => set_pending ItWork true s
  | schedule_delayed_work _ => set_pending ItDelayedWork true s
  | tasklet_schedule => set_pending ItTasklet true s
  | mod_timer _ => set_pending ItTimer true s
  | hrtimer_start _ => set_pending ItHrtimer true s
  | hrtimer_forward_now _
  | msleep _ | mutex_lock | mutex_unlock
  | spin_lock_irqsave | spin_unlock_irqrestore => s
  end.

Definition do_hcalls (cs : list hcall) (s : sched) : sched :=
  foldl (fun s c => do_hcall c s) s cs.

(** The calls the handler of [it] makes; the high-resolution timer is
    armed again when its callback answers [HRTIMER_RESTART]. *)
Definition handler_calls (it : item) (dev : async_demo_dev) : list hcall :=
  match it with
  | ItWork => demo_work_handler dev
  | ItDelayedWork => demo_delayed_work_handler dev
  | ItTasklet => demo_tasklet_handler dev
  | ItTimer => demo_timer_callback dev
  | ItHrtimer =>
    match fst (demo_hrtimer_callback dev) with
    | HRTIMER_RESTART => [hrtimer_start 100]
    | HRTIMER_NORESTART => []
    end
  end.

(** The kernel runs the handler of [it]: nothing happens unless [it] is
    pending; otherwise it is taken off, its handler runs and what the
    handler queues becomes pending. *)
Definition fire (it : item) (s : sched) : sched :=
  if pending it s then
    let s := set_pending it false s in
    let s := {| sdev := sdev s; pend_work := pend_work s;
                pend_delayed := pend_delayed s;
                pend_tasklet := pend_tasklet s;
                pend_timer := pend_timer s;
                pend_hrtimer := pend_hrtimer s;
                ran := ran s ++ [it] |} in
    do_hcalls (handler_calls it (sdev s)) s
  else s.

Definition fire_all (its : list item) (s : sched) : sched :=
  foldl (fun s it => fire it s) s its.

(** The effect of a teardown call on what is pending. *)
Definition do_kcall (c : Kapi.kcall) (s : sched) : sched :=
  match c with
  | Kapi.atomic_set_running v =>
    {| sdev := {| running := v; kthread := kthread (sdev s);
                  irq := irq (sdev s) |};
       pend_work := pend_work s; pend_delayed := pend_delayed s;
       pend_tasklet := pend_tasklet s; pend_timer := pend_timer s;
       pend_hrtimer := pend_hrtimer s; ran := ran s |}
  | Kapi.hrtimer_cancel => set_pending ItHrtimer false s
  | Kapi.del_timer_sync => set_pending ItTimer false s
  | Kapi.tasklet_kill => set_pending ItTasklet false s
  | Kapi.cancel_work_sync => set_pending ItWork false s
  | Kapi.cancel_delayed_work_sync => set_pending ItDelayedWork false s
  | _ => s
  end.

(** A teardown sequence run against the handlers: before each call the
    handlers named by the next element of [gaps] run, in that order. *)
Fixpoint run_teardown (calls : list Kapi.kcall) (gaps : list (list item))
    (s : sched) : sched :=
  match calls with
  | [] => s
  | c :: rest =>
    run_teardown rest (tail gaps)
      (do_kcall c (fire_all (default [] (head gaps)) s))
  end.

Definition quiescent (s : sched) : Prop :=
  forall it, pending it s = false.

(** The bookkeeping right after a successful attach. *)
Definition attached (dev : async_demo_dev) (calls : list hcall) : sched :=
  do_hcalls calls
    {| sdev := dev; pend_work := false; pend_delayed := false;
       pend_tasklet := false; pend_timer := false; pend_hrtimer := false;
       ran := [] |}.

(** The items whose handler arms its own item again. *)
Definition periodic (it : item) : bool :=
  match it with
  | ItDelayedWork | ItTimer | ItHrtimer => true
  | ItWork | ItTasklet => false
  end.

(** How far a teardown has got: the running flag is clear and the first
    [n] of high-resolution timer, coarse timer, tasklet, work item and
    delayed work item are not pending. *)
Definition quiet_upto (n : nat) (s : sched) : bool :=
  (running (sdev s) =? 0)
  && ((n <? 1)%nat || negb (pend_hrtimer s))
  && ((n <? 2)%nat || negb (pend_timer s))
  && ((n <? 3)%nat || negb (pend_tasklet s))
  && ((n <? 4)%nat || negb (pend_work s))
  && ((n <? 5)%nat || negb (pend_delayed s)).

(** The work the thread does before it stops: [n] rounds. *)
Definition thread_rounds (n : nat) : list thread_event :=
  concat (replicate n [ThWork; ThSleep 2000]).

End AsyncDemoHandlers.

(** * Properties of the advanced driver *)

Module AdvancedDriverSpec.
Import AdvancedDriver.

(** ** Basic facts *)

Lemma state_eqb_spec a b : reflect (a = b) (state_eqb a b).
Proof.
  unfold state_eqb.
  destruct a, b; simpl; constructor; congruence.
Qed.

Lemma state_eqb_eq a b : state_eqb a b = true <-> a = b.
Proof. destruct (state_eqb_spec a b); split; congruence. Qed.

Lemma state_eqb_neq a b : state_eqb a b = false <-> a <> b.
Proof. destruct (state_eqb_spec a b); split; congruence. Qed.

Lemma u8_land v : u8 (Z.land v 0xFF) = Z.land v 0xFF.
Proof.
  unfold u8. change 0xFF with (Z.ones 8).
  rewrite Z.land_ones by lia. change (2 ^ 8) with 256.
  apply Z.mod_mod. lia.
Qed.

Lemma u8_cmd cmd : u8 (cmd_value cmd) = cmd_value cmd.
Proof. by destruct cmd. Qed.

Lemma land_small len : 0 <= len < 256 -> Z.land len 0xFF = len.
Proof.
  intros H. change 0xFF with (Z.ones 8).
  rewrite Z.land_ones by lia. apply Z.mod_small. change (2 ^ 8) with 256. lia.
Qed.

Lemma shiftr_small len : 0 <= len < 256 -> Z.land (Z.shiftr len 8) 0xFF = 0.
Proof.
  intros H. rewrite Z.shiftr_div_pow2 by lia. change (2 ^ 8) with 256.
  rewrite Z.div_small by lia. reflexivity.
Qed.

(** The four header stores of [send_command] over the zeroed buffer. *)
Lemma header_stores cmd len :
  set_header 3 (Z.land (Z.shiftr len 8) 0xFF)
    (set_header 2 (Z.land len 0xFF)
       (set_header 1 (cmd_value cmd) (set_header 0 0xAA memset_packet)))
  = command_packet cmd len [].
Proof.
  unfold set_header, command_packet. rewrite !u8_land, u8_cmd. reflexivity.
Qed.

Lemma memcpy_command_packet cmd len src n :
  (length (take (Z.to_nat n) src) <= PAYLOAD_SIZE)%nat ->
  memcpy_payload src n (command_packet cmd len [])
  = command_packet cmd len (take (Z.to_nat n) src).
Proof.
  intros Hn. unfold memcpy_payload, command_packet, HEADER_SIZE.
  set (body := take (Z.to_nat n) src) in *.
  cbn [app]. rewrite !list_inserts_cons. do 4 f_equal.
  cbn [length]. rewrite Nat.sub_0_r.
  replace (replicate PAYLOAD_SIZE 0)
    with (replicate (length body) 0 ++ replicate (PAYLOAD_SIZE - length body) 0).
  - apply list_inserts_0_r. by rewrite length_replicate.
  - rewrite <- replicate_add. f_equal. lia.
Qed.

(** What [send_command] does whenever the device is not in [STATE_ERROR]:
    the buffer is rebuilt, the state set, the URB filled and submitted. *)
Lemma send_command_not_error cmd data len ret k :
  state (device k) <> STATE_ERROR ->
  send_command DEV cmd data len ret k =
  let pkt :=
    match data with
    | Some src =>
      if (0 <? len) && (len <=? Z.of_nat PAYLOAD_SIZE)
      then command_packet cmd len
             (take (Z.to_nat len) (read_data (command_packet cmd len []) src))
      else command_packet cmd len []
    | None => command_packet cmd len []
    end in
  let u := usb_fill_bulk_urb (bulk_urb (device k))
             (usb_sndbulkpipe (bulk_out_addr (device k)))
             TxBytes (to_int (size_t (4 + len))) bulk_complete DEV in
  (ret,
   {| device := set_bulk_urb u
                  (set_state STATE_TRANSFERRING
                     (set_tx_buffer pkt (device k)));
      klog := klog k ++ [EvSubmitUrb u pkt ret] |}).
Proof.
  intros Hst. apply state_eqb_neq in Hst.
  unfold send_command. rewrite Hst. rewrite header_stores.
  cbv zeta.
  assert (Hpkt :
    match data with
    | Some src =>
      if (0 <? len) && (len <=? Z.of_nat PAYLOAD_SIZE)
      then memcpy_payload (read_data (command_packet cmd len []) src) len
             (command_packet cmd len [])
      else command_packet cmd len []
    | None => command_packet cmd len []
    end =
    match data with
    | Some src =>
      if (0 <? len) && (len <=? Z.of_nat PAYLOAD_SIZE)
      then command_packet cmd len
             (take (Z.to_nat len) (read_data (command_packet cmd len []) src))
      else command_packet cmd len []
    | None => command_packet cmd len []
    end).
  { destruct data as [src|]; [|done].
    destruct ((0 <? len) && (len <=? Z.of_nat PAYLOAD_SIZE)) eqn:E; [|done].
    apply andb_prop in E as [_ E]. apply Z.leb_le in E.
    apply memcpy_command_packet. rewrite length_take. lia. }
  rewrite Hpkt. reflexivity.
Qed.

(** ** Submission from the error state *)

Lemma send_command_error_state_eq dev cmd data len ret k :
  state (device k) = STATE_ERROR ->
  send_command dev cmd data len ret k = (- EINVAL, k).
Proof.
  intros Hst. unfold send_command. destruct dev; [done|].
  apply state_eqb_eq in Hst. by rewrite Hst.
Qed.

(** C7: on a device whose state is [STATE_ERROR], [send_command] fails with
    [-EINVAL] before doing anything else: the machine it returns is the one
    it was given, so [tx_buffer], [state] and [last_result] keep their
    values and no transfer is submitted. *)
Theorem send_command_error_state dev cmd data len ret k :
  state (device k) = STATE_ERROR ->
  send_command dev cmd data len ret k = (- EINVAL, k).
Proof. apply send_command_error_state_eq. Qed.

Lemma send_command_error_state_witness :
  let k := with_device (set_state STATE_ERROR) (advanced_probe 0x81 0x02 64) in
  state (device k) = STATE_ERROR /\
  send_command DEV CMD_STATUS None 0 0 k = (- EINVAL, k).
Proof.
  split; [reflexivity|].
  apply (send_command_error_state DEV CMD_STATUS None 0 0). reflexivity.
Defined.

(** ** Oversized payloads *)

(** C1, as stated, fails: with 61 payload bytes on an idle device the call
    answers what the USB core answers (here 0), rewrites [tx_buffer],
    sets the state and submits a transfer. *)
Lemma send_command_oversize_counterexample :
  let k := advanced_probe 0x81 0x02 64 in
  let r := send_command DEV CMD_WRITE (Some (DataOther (replicate 61 0x55))) 61 0 k in
  60 < 61 /\
  fst r = 0 /\
  fst r <> - EINVAL /\
  tx_buffer (device (snd r)) <> tx_buffer (device k) /\
  state (device (snd r)) <> state (device k) /\
  filter (fun e => is_submission e = true) (klog (snd r)) <> [].
Proof. vm_compute. repeat split; discriminate. Qed.

(** C1, amended: a length above 60 is not rejected.  On a device that is
    not in [STATE_ERROR] the call answers what the submission answers, the
    buffer holds the header followed by 60 zero bytes (no payload byte is
    copied, whatever [data] is), the state is [STATE_TRANSFERRING] and one
    submission of [tx_buffer] is logged. *)
Theorem send_command_oversize cmd data len ret k :
  Z.of_nat PAYLOAD_SIZE < len ->
  state (device k) <> STATE_ERROR ->
  let r := send_command DEV cmd data len ret k in
  fst r = ret /\
  tx_buffer (device (snd r)) = command_packet cmd len [] /\
  payload (tx_buffer (device (snd r))) = replicate PAYLOAD_SIZE 0 /\
  state (device (snd r)) = STATE_TRANSFERRING /\
  last_result (device (snd r)) = last_result (device k) /\
  exists u,
    transfer_buffer u = TxBytes /\
    klog (snd r) = klog k ++ [EvSubmitUrb u (command_packet cmd len []) ret].
Proof.
  intros Hlen Hst r. subst r. rewrite send_command_not_error by done.
  assert (E : (0 <? len) && (len <=? Z.of_nat PAYLOAD_SIZE) = false).
  { apply andb_false_iff. right. apply Z.leb_gt. lia. }
  rewrite E. cbv zeta. cbn [fst snd device klog tx_buffer state last_result
    set_bulk_urb set_state set_tx_buffer].
  assert (Hp : match data with
               | Some _ | None => command_packet cmd len []
               end = command_packet cmd len []) by (by destruct data).
  rewrite Hp. repeat split.
  eexists. split; [|reflexivity]. reflexivity.
Qed.

Lemma send_command_oversize_witness :
  let k := advanced_probe 0x81 0x02 64 in
  let r := send_command DEV CMD_WRITE (Some (DataOther (replicate 61 0x55))) 61 0 k in
  Z.of_nat PAYLOAD_SIZE < 61 /\
  state (device k) <> STATE_ERROR /\
  fst r = 0 /\
  payload (tx_buffer (device (snd r))) = replicate PAYLOAD_SIZE 0 /\
  state (device (snd r)) = STATE_TRANSFERRING.
Proof.
  assert (H1 : Z.of_nat PAYLOAD_SIZE < 61) by (vm_compute; reflexivity).
  assert (H2 : state (device (advanced_probe 0x81 0x02 64)) <> STATE_ERROR)
    by discriminate.
  destruct (send_command_oversize CMD_WRITE (Some (DataOther (replicate 61 0x55))) 61 0
              (advanced_probe 0x81 0x02 64) H1 H2) as (R1 & _ & R3 & R4 & _).
  exact (conj H1 (conj H2 (conj R1 (conj R3 R4)))).
Defined.

(** ** Encoding followed by decoding *)

Lemma header_command_packet_0 cmd len body :
  header (command_packet cmd len body) 0 = 0xAA.
Proof. reflexivity. Qed.

Lemma header_command_packet_1 cmd len body :
  header (command_packet cmd len body) 1 = cmd_value cmd.
Proof. reflexivity. Qed.

Lemma header_length_command_packet cmd len body :
  0 <= len < 256 -> header_length (command_packet cmd len body) = len.
Proof.
  intros H. unfold header_length, command_packet, header. cbn.
  rewrite land_small, shiftr_small by done. cbn. apply Z.lor_0_r.
Qed.

Lemma payload_command_packet cmd len body :
  (length body <= PAYLOAD_SIZE)%nat ->
  payload (command_packet cmd len body)
  = body ++ replicate (PAYLOAD_SIZE - length body) 0.
Proof.
  intros H. unfold payload, command_packet, HEADER_SIZE. cbn [app drop].
  apply take_ge. rewrite length_app, length_replicate. lia.
Qed.

(** C2, as stated, fails for the command code Control: the packet that
    [send_command] builds for it is refused by [process_response]. *)
Lemma roundtrip_control_counterexample :
  let k := advanced_probe 0x81 0x02 64 in
  let k1 := snd (send_command DEV CMD_CONTROL (Some (DataOther [1; 2; 3])) 3 0 k) in
  cmd_value CMD_CONTROL = 0x03 /\
  fst (process_response (Some TxBytes) k1) = RESULT_INVALID /\
  fst (process_response (Some TxBytes) k1) <> RESULT_OK.
Proof. vm_compute. repeat split; discriminate. Qed.

Lemma send_command_tx_data cmd p len ret k :
  state (device k) <> STATE_ERROR ->
  0 <= len <= Z.of_nat PAYLOAD_SIZE ->
  tx_buffer (device (snd (send_command DEV cmd (Some p) len ret k)))
  = command_packet cmd len
      (take (Z.to_nat len) (read_data (command_packet cmd len []) p)).
Proof.
  intros Hst Hlen. rewrite send_command_not_error by done. cbv zeta.
  cbn [snd device tx_buffer set_bulk_urb set_state set_tx_buffer].
  destruct ((0 <? len) && (len <=? Z.of_nat PAYLOAD_SIZE)) eqn:E; [done|].
  assert (len = 0) as ->.
  { apply andb_false_iff in E as [E|E].
    - apply Z.ltb_ge in E. lia.
    - apply Z.leb_gt in E. lia. }
  reflexivity.
Qed.

(** C2, amended: for the command codes Read, Write, Status and Reset, a
    length [len <= 60] and a [data] pointer to at least [len] bytes
    outside [dev->tx_buffer], on a device that is not in [STATE_ERROR],
    the buffer filled by [send_command] carries the sync byte, the
    command code, the length and those [len] bytes followed by zeros,
    and [process_response] applied to it answers [RESULT_OK] (its whole
    result: it hands back neither the code nor the payload); for Control
    it answers [RESULT_INVALID].  When [data] points into [tx_buffer]
    itself, past the payload bytes being written and inside the buffer,
    the bytes it designated before the call are not sent: the buffer is
    zeroed before the copy and the payload is all zero. *)
Theorem encode_decode_roundtrip cmd (src : list Z) len ret k :
  state (device k) <> STATE_ERROR ->
  0 <= len <= Z.of_nat PAYLOAD_SIZE ->
  (Z.to_nat len <= length src)%nat ->
  let k1 := snd (send_command DEV cmd (Some (DataOther src)) len ret k) in
  let tx := tx_buffer (device k1) in
  header tx 0 = 0xAA /\
  header tx 1 = cmd_value cmd /\
  header_length tx = len /\
  take (Z.to_nat len) (payload tx) = take (Z.to_nat len) src /\
  payload tx
  = take (Z.to_nat len) src ++ replicate (PAYLOAD_SIZE - Z.to_nat len) 0 /\
  fst (process_response (Some TxBytes) k1)
  = match cmd with
    | CMD_CONTROL => RESULT_INVALID
    | _ => RESULT_OK
    end /\
  forall off,
    (HEADER_SIZE + Z.to_nat len <= off)%nat ->
    (off + Z.to_nat len <= PACKET_SIZE)%nat ->
    payload (tx_buffer
               (device (snd (send_command DEV cmd (Some (DataTx off)) len
                               ret k))))
    = replicate PAYLOAD_SIZE 0.
Proof.
  intros Hst Hlen Hsrc k1 tx.
  assert (Htx : tx = command_packet cmd len (take (Z.to_nat len) src)).
  { subst tx k1. by rewrite send_command_tx_data. }
  assert (Hbl : length (take (Z.to_nat len) src) = Z.to_nat len)
    by (rewrite length_take; lia).
  assert (Hb60 : (length (take (Z.to_nat len) src) <= PAYLOAD_SIZE)%nat)
    by (unfold PAYLOAD_SIZE in *; lia).
  assert (Hpay : payload tx = take (Z.to_nat len) src
                              ++ replicate (PAYLOAD_SIZE - Z.to_nat len) 0).
  { rewrite Htx, payload_command_packet by done. by rewrite Hbl. }
  split; [by rewrite Htx|]. split; [by rewrite Htx|].
  split.
  { rewrite Htx. apply header_length_command_packet.
    unfold PAYLOAD_SIZE in *. lia. }
  split; [rewrite Hpay; by apply take_app_length'|].
  split; [exact Hpay|].
  split.
  { unfold process_response. cbv zeta.
    change (deref k1 TxBytes) with tx. rewrite Htx.
    rewrite header_command_packet_0, header_command_packet_1.
    by destruct cmd. }
  intros off Hoff Hend. rewrite send_command_tx_data by done.
  cbn [read_data]. unfold HEADER_SIZE, PACKET_SIZE in *.
  destruct off as [|[|[|[|off]]]]; try lia.
  assert (Hz : take (Z.to_nat len)
                 (drop (S (S (S (S off)))) (command_packet cmd len []))
               = replicate (Z.to_nat len) 0).
  { unfold command_packet. cbn [app drop length]. unfold PAYLOAD_SIZE.
    rewrite Nat.sub_0_r, drop_replicate, take_replicate. f_equal. lia. }
  rewrite Hz, payload_command_packet
    by (rewrite length_replicate; unfold PAYLOAD_SIZE in *; lia).
  rewrite length_replicate, <- replicate_add. f_equal.
  unfold PAYLOAD_SIZE in *. lia.
Qed.

Lemma encode_decode_roundtrip_witness :
  let k := advanced_probe 0x81 0x02 64 in
  let k1 := snd (send_command DEV CMD_STATUS (Some (DataOther [7; 8; 9])) 3
                   0 k) in
  state (device k) <> STATE_ERROR /\
  0 <= 3 <= Z.of_nat PAYLOAD_SIZE /\
  (Z.to_nat 3 <= length [7; 8; 9])%nat /\
  header (tx_buffer (device k1)) 1 = cmd_value CMD_STATUS /\
  take (Z.to_nat 3) (payload (tx_buffer (device k1)))
  = take (Z.to_nat 3) [7; 8; 9] /\
  fst (process_response (Some TxBytes) k1) = RESULT_OK /\
  payload (tx_buffer
             (device (snd (send_command DEV CMD_STATUS (Some (DataTx 7)) 3 0
                             k))))
  = replicate PAYLOAD_SIZE 0.
Proof.
  assert (H1 : state (device (advanced_probe 0x81 0x02 64)) <> STATE_ERROR)
    by discriminate.
  assert (H2 : 0 <= 3 <= Z.of_nat PAYLOAD_SIZE)
    by (vm_compute; split; discriminate).
  assert (H3 : (Z.to_nat 3 <= length [7; 8; 9])%nat) by (vm_compute; lia).
  destruct (encode_decode_roundtrip CMD_STATUS [7; 8; 9] 3 0
              (advanced_probe 0x81 0x02 64) H1 H2 H3)
    as (_ & R2 & _ & R4 & _ & R6 & R7).
  assert (A1 : (HEADER_SIZE + Z.to_nat 3 <= 7)%nat) by (vm_compute; lia).
  assert (A2 : (7 + Z.to_nat 3 <= PACKET_SIZE)%nat) by (vm_compute; lia).
  exact (conj H1 (conj H2 (conj H3 (conj R2 (conj R4
           (conj R6 (R7 7%nat A1 A2))))))).
Defined.

(** ** Decoding *)

(** C6, as stated, fails: a buffer whose first byte is the sync value is
    still refused when its command byte is not handled. *)
Lemma process_response_sync_ok_counterexample :
  let k := advanced_probe 0x81 0x02 64 in
  let pkt := [0xAA; 0x03] ++ replicate 62 0 in
  header pkt 0 = 0xAA /\
  process_response (Some (Extern pkt)) k = (RESULT_INVALID, k).
Proof. vm_compute. split; reflexivity. Qed.

(** C6, amended: [process_response] answers [RESULT_INVALID] and leaves
    the machine as it was whenever the first byte differs from [0xAA],
    whatever follows; when the first byte is [0xAA] it answers
    [RESULT_OK] exactly when the command byte is Read, Write, Status or
    Reset (Status loads [ctrl.raw] from the first four payload bytes, Reset
    sets the state to [STATE_IDLE], nothing else changes) and
    [RESULT_INVALID], with the machine as it was, for every other command
    byte.  The result is a code only. *)
Theorem process_response_cases (p : buf_ptr) k :
  let pkt := deref k p in
  let r := process_response (Some p) k in
  (header pkt 0 <> 0xAA -> r = (RESULT_INVALID, k)) /\
  (header pkt 0 = 0xAA ->
   (header pkt 1 = 0x01 \/ header pkt 1 = 0x02 -> r = (RESULT_OK, k)) /\
   (header pkt 1 = 0x04 ->
    r = (RESULT_OK, with_device (set_ctrl_raw (load_u32 (payload pkt))) k)) /\
   (header pkt 1 = 0xFF ->
    r = (RESULT_OK, with_device (set_state STATE_IDLE) k)) /\
   (header pkt 1 <> 0x01 -> header pkt 1 <> 0x02 ->
    header pkt 1 <> 0x04 -> header pkt 1 <> 0xFF ->
    r = (RESULT_INVALID, k))) /\
  (fst r = RESULT_INVALID <->
   header pkt 0 <> 0xAA \/
   (header pkt 1 <> 0x01 /\ header pkt 1 <> 0x02 /\
    header pkt 1 <> 0x04 /\ header pkt 1 <> 0xFF)).
Proof.
  intros pkt r. subst r. unfold process_response. cbv zeta.
  fold pkt. unfold cmd_value.
  destruct (Z.eqb_spec (header pkt 0) 0xAA) as [E0|E0]; cbn [negb].
  - destruct (Z.eqb_spec (header pkt 1) 0x01) as [E1|E1];
    destruct (Z.eqb_spec (header pkt 1) 0x02) as [E2|E2];
    destruct (Z.eqb_spec (header pkt 1) 0x04) as [E4|E4];
    destruct (Z.eqb_spec (header pkt 1) 0xFF) as [EF|EF];
    cbn [orb fst]; try lia;
    (split; [intros; lia|]); (split; [intros _|]);
    repeat split; intros; try reflexivity; try lia; try discriminate;
    intuition (try lia; try discriminate).
  - split; [done|]. split; [intros; lia|]. cbn [fst]. split; [by left|done].
Qed.

Lemma process_response_cases_witness :
  let k := advanced_probe 0x81 0x02 64 in
  let bad := Extern ([0x55; 0x01] ++ replicate 62 0) in
  let reset := Extern ([0xAA; 0xFF] ++ replicate 62 0) in
  process_response (Some bad) k = (RESULT_INVALID, k) /\
  process_response (Some reset) k
  = (RESULT_OK, with_device (set_state STATE_IDLE) k).
Proof.
  destruct (process_response_cases (Extern ([0x55; 0x01] ++ replicate 62 0))
              (advanced_probe 0x81 0x02 64)) as (Hbad & _ & _).
  destruct (process_response_cases (Extern ([0xAA; 0xFF] ++ replicate 62 0))
              (advanced_probe 0x81 0x02 64)) as (_ & Hok & _).
  split.
  - apply Hbad. vm_compute. discriminate.
  - apply Hok; reflexivity.
Defined.

(** ** Transfer completion *)

(** C3: a completion delivered to the device while it is in
    [STATE_TRANSFERRING] does one of three things.  Status 0: state
    [STATE_IDLE], [last_result] [RESULT_OK], and one call of [on_data]
    with the buffer and length of the URB exactly when the pointer is
    set.  Status [-ENOENT], [-ECONNRESET] or [-ESHUTDOWN]: state
    [STATE_ERROR], [last_result] as before the call.  Any other status:
    state [STATE_ERROR], [last_result] [RESULT_INVALID].  Nothing is
    logged in the two failure cases. *)
Theorem bulk_complete_callback_cases u k :
  urb_context u = DEV ->
  state (device k) = STATE_TRANSFERRING ->
  let k' := bulk_complete_callback u k in
  (urb_status u = 0 ->
   state (device k') = STATE_IDLE /\
   last_result (device k') = RESULT_OK /\
   klog k' = klog k ++
             match on_data (device k) with
             | Some f => [EvOnData f (transfer_buffer u) (actual_length u)]
             | None => []
             end) /\
  (shutdown_status (urb_status u) ->
   state (device k') = STATE_ERROR /\
   last_result (device k') = last_result (device k) /\
   klog k' = klog k) /\
  (urb_status u <> 0 -> ~ shutdown_status (urb_status u) ->
   state (device k') = STATE_ERROR /\
   last_result (device k') = RESULT_INVALID /\
   klog k' = klog k).
Proof.
  intros Hctx _ k'. subst k'. unfold bulk_complete_callback, shutdown_status.
  rewrite Hctx. cbv zeta.
  destruct (Z.eqb_spec (urb_status u) 0) as [E0|E0].
  - split; [intros _|split; [|done]].
    + cbn [with_device device set_state set_last_result on_data].
      destruct (on_data (device k)); cbn; [done|].
      by rewrite app_nil_r.
    + rewrite E0. unfold ENOENT, ECONNRESET, ESHUTDOWN. lia.
  - split; [done|].
    destruct (Z.eqb_spec (urb_status u) (- ENOENT)) as [E1|E1];
    destruct (Z.eqb_spec (urb_status u) (- ECONNRESET)) as [E2|E2];
    destruct (Z.eqb_spec (urb_status u) (- ESHUTDOWN)) as [E3|E3];
    cbn [orb]; (split; [intros H|intros _ H]); try done;
    exfalso; tauto.
Qed.

Lemma bulk_complete_callback_cases_witness :
  let k := with_device (set_last_result RESULT_BUSY)
             (with_device (set_state STATE_TRANSFERRING)
                (advanced_probe 0x81 0x02 64)) in
  let u := usb_fill_bulk_urb zero_urb 2 TxBytes 4 bulk_complete DEV in
  let shut := {| urb_status := - ESHUTDOWN; urb_context := DEV; urb_pipe := 2;
                 transfer_buffer := TxBytes; transfer_buffer_length := 4;
                 actual_length := 0; urb_complete := Some bulk_complete |} in
  urb_context u = DEV /\
  state (device k) = STATE_TRANSFERRING /\
  state (device (bulk_complete_callback u k)) = STATE_IDLE /\
  last_result (device (bulk_complete_callback u k)) = RESULT_OK /\
  state (device (bulk_complete_callback shut k)) = STATE_ERROR /\
  last_result (device (bulk_complete_callback shut k)) = RESULT_BUSY.
Proof.
  set (k := with_device (set_last_result RESULT_BUSY)
              (with_device (set_state STATE_TRANSFERRING)
                 (advanced_probe 0x81 0x02 64))).
  set (u := usb_fill_bulk_urb zero_urb 2 TxBytes 4 bulk_complete DEV).
  set (shut := {| urb_status := - ESHUTDOWN; urb_context := DEV;
                  urb_pipe := 2; transfer_buffer := TxBytes;
                  transfer_buffer_length := 4; actual_length := 0;
                  urb_complete := Some bulk_complete |}).
  assert (Hu : urb_context u = DEV) by reflexivity.
  assert (Hs : urb_context shut = DEV) by reflexivity.
  assert (Hk : state (device k) = STATE_TRANSFERRING) by reflexivity.
  destruct (bulk_complete_callback_cases u k Hu Hk) as (Hok & _ & _).
  destruct (bulk_complete_callback_cases shut k Hs Hk) as (_ & Hshut & _).
  destruct Hok as (A1 & A2 & _); [reflexivity|].
  destruct Hshut as (B1 & B2 & _).
  { right. right. reflexivity. }
  exact (conj Hu (conj Hk (conj A1 (conj A2 (conj B1 B2))))).
Defined.

(** ** The retry policy *)

(** C4, as stated, fails: after a tick on a device in [STATE_ERROR] with
    auto-reconnect set, the state is [STATE_TRANSFERRING], not
    [STATE_CONNECTING]. *)
Lemma delayed_work_state_counterexample :
  let k := with_device (set_state STATE_ERROR) (advanced_probe 0x81 0x02 64) in
  let k' := device_delayed_work_handler 0 k in
  state (device k) = STATE_ERROR /\
  auto_reconnect (config (device k)) = true /\
  state (device k') = STATE_TRANSFERRING /\
  state (device k') <> STATE_CONNECTING.
Proof. vm_compute. repeat split; discriminate. Qed.

Lemma ticks_fixpoint answers k :
  (forall ret, device_delayed_work_handler ret k = k) ->
  ticks answers k = k.
Proof.
  intros Hk. unfold ticks. induction answers as [|ret rest IH]; [done|].
  cbn [foldl]. by rewrite Hk.
Qed.

(** C4, amended: a tick on a device in [STATE_ERROR] with auto-reconnect
    set writes [STATE_CONNECTING] and runs [send_command] for Reset with
    no payload from there, which leaves the state [STATE_TRANSFERRING],
    the Reset packet in [tx_buffer] and exactly one submission in the
    log; with auto-reconnect clear, or in any state other than
    [STATE_ERROR], a tick, and any number of ticks, returns the machine
    it was given. *)
Theorem delayed_work_tick ret k :
  (state (device k) = STATE_ERROR ->
   auto_reconnect (config (device k)) = true ->
   let k' := device_delayed_work_handler ret k in
   k' = snd (send_command DEV CMD_RESET None 0 ret
               (with_device (set_state STATE_CONNECTING) k)) /\
   state (device k') = STATE_TRANSFERRING /\
   tx_buffer (device k') = command_packet CMD_RESET 0 [] /\
   exists u,
     transfer_buffer u = TxBytes /\
     transfer_buffer_length u = 4 /\
     klog k' = klog k ++ [EvSubmitUrb u (command_packet CMD_RESET 0 []) ret]) /\
  (auto_reconnect (config (device k)) = false ->
   device_delayed_work_handler ret k = k /\
   forall answers, ticks answers k = k) /\
  (state (device k) <> STATE_ERROR ->
   device_delayed_work_handler ret k = k /\
   forall answers, ticks answers k = k).
Proof.
  split; [|split].
  - intros Hst Hauto k'. subst k'. unfold device_delayed_work_handler.
    apply state_eqb_eq in Hst. rewrite Hst, Hauto. cbn [andb]. cbv zeta.
    split; [reflexivity|].
    rewrite send_command_not_error by (cbn; discriminate).
    cbv zeta.
    cbn [snd device klog state tx_buffer with_device set_bulk_urb set_state
         set_tx_buffer].
    repeat split. eexists. split; [|split; [|reflexivity]]; reflexivity.
  - intros Hauto.
    assert (H : forall r, device_delayed_work_handler r k = k).
    { intros r. unfold device_delayed_work_handler.
      by rewrite Hauto, andb_false_r. }
    split; [apply H|]. intros answers. by apply ticks_fixpoint.
  - intros Hst. apply state_eqb_neq in Hst.
    assert (H : forall r, device_delayed_work_handler r k = k).
    { intros r. unfold device_delayed_work_handler. by rewrite Hst. }
    split; [apply H|]. intros answers. by apply ticks_fixpoint.
Qed.

Lemma delayed_work_tick_witness :
  let k := with_device (set_state STATE_ERROR) (advanced_probe 0x81 0x02 64) in
  let idle := advanced_probe 0x81 0x02 64 in
  state (device k) = STATE_ERROR /\
  auto_reconnect (config (device k)) = true /\
  state (device (device_delayed_work_handler 0 k)) = STATE_TRANSFERRING /\
  state (device idle) <> STATE_ERROR /\
  ticks [0; 0; 0] idle = idle.
Proof.
  set (k := with_device (set_state STATE_ERROR) (advanced_probe 0x81 0x02 64)).
  set (idle := advanced_probe 0x81 0x02 64).
  assert (H1 : state (device k) = STATE_ERROR) by reflexivity.
  assert (H2 : auto_reconnect (config (device k)) = true) by reflexivity.
  assert (H3 : state (device idle) <> STATE_ERROR) by discriminate.
  destruct (delayed_work_tick 0 k) as (Herr & _ & _).
  destruct (delayed_work_tick 0 idle) as (_ & _ & Hidle).
  destruct (Herr H1 H2) as (_ & R & _).
  destruct (Hidle H3) as (_ & T).
  cbv zeta. split; [exact H1|]. split; [exact H2|]. split; [exact R|].
  split; [exact H3|]. exact (T [0; 0; 0]).
Defined.

(** ** Opening the device *)

(** C8: [device_open] on a device in [STATE_IDLE] answers 0 and leaves
    the state [STATE_CONNECTING]; the lock is taken and released, and
    the [on_connect] call, made exactly when the pointer is set, comes
    after the release.  In any other state it answers [-EBUSY], the
    device record is as it was, and only the lock is taken and
    released. *)
Theorem device_open_cases k :
  let r := device_open k in
  (state (device k) = STATE_IDLE ->
   fst r = 0 /\
   device (snd r) = set_state STATE_CONNECTING (device k) /\
   state (device (snd r)) = STATE_CONNECTING /\
   klog (snd r) = klog k ++ [EvSpinLock; EvSpinUnlock] ++
                  match on_connect (device k) with
                  | Some f => [EvOnConnect f]
                  | None => []
                  end) /\
  (state (device k) <> STATE_IDLE ->
   fst r = - EBUSY /\
   device (snd r) = device k /\
   klog (snd r) = klog k ++ [EvSpinLock; EvSpinUnlock]).
Proof.
  intros r. subst r. unfold device_open. cbv zeta.
  cbn [emit device klog].
  destruct (state_eqb_spec (state (device k)) STATE_IDLE) as [E|E];
    cbn [negb]; (split; [intros H|intros H]); try done.
  - unfold with_device, emit. cbn [device klog on_connect set_state].
    destruct (on_connect (device k)) as [f|];
      cbn [fst snd device klog state set_state];
      rewrite <- ?app_assoc; cbn [app]; rewrite ?app_nil_r; done.
  - unfold emit. cbn [fst snd device klog]. by rewrite <- app_assoc.
Qed.

Lemma device_open_cases_witness :
  let idle := advanced_probe 0x81 0x02 64 in
  let busy := snd (device_open idle) in
  state (device idle) = STATE_IDLE /\
  fst (device_open idle) = 0 /\
  state (device busy) = STATE_CONNECTING /\
  state (device busy) <> STATE_IDLE /\
  fst (device_open busy) = - EBUSY /\
  device (snd (device_open busy)) = device busy.
Proof.
  set (idle := advanced_probe 0x81 0x02 64).
  set (busy := snd (device_open idle)).
  assert (H1 : state (device idle) = STATE_IDLE) by reflexivity.
  assert (H2 : state (device busy) <> STATE_IDLE) by discriminate.
  destruct (device_open_cases idle) as (Hidle & _).
  destruct (device_open_cases busy) as (_ & Hbusy).
  destruct (Hidle H1) as (A1 & _ & A3 & _).
  destruct (Hbusy H2) as (B1 & B2 & _).
  exact (conj H1 (conj A1 (conj A3 (conj H2 (conj B1 B2))))).
Defined.

(** ** States the driver assigns *)

Lemma assigned_not_connected s : assigned_state s -> s <> STATE_CONNECTED.
Proof. unfold assigned_state. intros [->|[->|[->| ->]]]; discriminate. Qed.

Lemma send_command_state dev cmd data len ret k :
  let k' := snd (send_command dev cmd data len ret k) in
  state (device k') = state (device k) \/
  state (device k') = STATE_TRANSFERRING.
Proof.
  cbv zeta. destruct dev; [by left|].
  destruct (state_eqb_spec (state (device k)) STATE_ERROR) as [E|E].
  - rewrite send_command_error_state_eq by done. by left.
  - rewrite send_command_not_error by done. by right.
Qed.

Lemma process_response_state packet k :
  let k' := snd (process_response packet k) in
  state (device k') = state (device k) \/ state (device k') = STATE_IDLE.
Proof.
  cbv zeta. unfold process_response. destruct packet as [p|]; [|by left].
  cbv zeta. repeat case_match; cbn; auto.
Qed.

Lemma exec_state c k :
  state (device (exec c k)) = state (device k) \/
  assigned_state (state (device (exec c k))).
Proof.
  unfold assigned_state. destruct c as [| |count nc|user count nc ret|u|u|ret|ret];
    cbn [exec].
  - unfold device_open. cbv zeta. repeat case_match; cbn; auto.
  - unfold device_release. cbn. auto.
  - unfold device_read. cbv zeta. repeat case_match; cbn; auto.
  - unfold device_write. cbv zeta.
    destruct (negb _); [by left|]. destruct (negb _); [by left|].
    match goal with |- context [send_command ?d ?c ?b ?l ?r ?k0] =>
      pose proof (send_command_state d c b l r k0) as H;
      destruct (send_command d c b l r k0) as [ret' k'] end.
    cbn [snd] in H. cbv zeta in H.
    assert (Hs : state (device k') = state (device k) \/
                 state (device k') = STATE_TRANSFERRING).
    { destruct H as [H|H]; [left; rewrite H; reflexivity|by right]. }
    destruct (ret' <? 0); cbn [snd]; destruct Hs; auto.
  - unfold bulk_complete_callback. cbv zeta. repeat case_match; cbn; auto.
  - unfold ctrl_complete_callback. repeat case_match; cbn; auto.
  - unfold device_work_handler. cbv zeta. cbn [emit device klog].
    destruct (state_eqb _ _); [|by left].
    match goal with |- context [send_command ?d ?c ?b ?l ?r ?k0] =>
      destruct (send_command_state d c b l r k0) as [H|H] end;
      cbn [emit device]; rewrite H; cbn; auto.
  - unfold device_delayed_work_handler.
    destruct (_ && _); [|by left]. cbv zeta.
    match goal with |- context [send_command ?d ?c ?b ?l ?r ?k0] =>
      destruct (send_command_state d c b l r k0) as [H|H] end;
      rewrite H; cbn; auto.
Qed.

Lemma reachable_assigned k : reachable k -> assigned_state (state (device k)).
Proof.
  induction 1 as [bi bo mp|c k Hk IH].
  - by left.
  - destruct (exec_state c k) as [E|E]; [by rewrite E|done].
Qed.

Lemma send_command_callbacks dev cmd data len ret k :
  same_callbacks (device k) (device (snd (send_command dev cmd data len ret k))).
Proof.
  destruct dev; [done|].
  destruct (state_eqb_spec (state (device k)) STATE_ERROR) as [E|E].
  - by rewrite send_command_error_state_eq.
  - by rewrite send_command_not_error.
Qed.

Lemma exec_callbacks c k : same_callbacks (device k) (device (exec c k)).
Proof.
  destruct c as [| |count nc|user count nc ret|u|u|ret|ret]; cbn [exec].
  - unfold device_open. cbv zeta. repeat case_match; done.
  - unfold device_release. cbv zeta. repeat case_match; done.
  - unfold device_read. cbv zeta. repeat case_match; done.
  - unfold device_write. cbv zeta.
    destruct (negb _); [done|]. destruct (negb _); [done|].
    match goal with |- context [send_command ?d ?c ?b ?l ?r ?k0] =>
      pose proof (send_command_callbacks d c b l r k0) as H;
      destruct (send_command d c b l r k0) as [ret' k'] end.
    destruct (ret' <? 0); exact H.
  - unfold bulk_complete_callback. cbv zeta. repeat case_match; done.
  - unfold ctrl_complete_callback. repeat case_match; done.
  - unfold device_work_handler. cbv zeta. cbn [emit device].
    destruct (state_eqb _ _); [|done].
    match goal with |- context [send_command ?d ?c ?b ?l ?r ?k0] =>
      exact (send_command_callbacks d c b l r k0) end.
  - unfold device_delayed_work_handler.
    destruct (_ && _); [|done]. cbv zeta.
    match goal with |- context [send_command ?d ?c ?b ?l ?r ?k0] =>
      exact (send_command_callbacks d c b l r k0) end.
Qed.

(** No entry point assigns a callback pointer, and [advanced_probe]
    leaves all three null: on a reachable machine no code outside the
    driver is ever called through them. *)
Lemma reachable_callbacks_null k :
  reachable k ->
  on_connect (device k) = None /\ on_disconnect (device k) = None
  /\ on_data (device k) = None.
Proof.
  induction 1 as [bi bo mp|c k Hk (I1 & I2 & I3)]; [done|].
  destruct (exec_callbacks c k) as (E1 & E2 & E3). by rewrite E1, E2, E3.
Qed.

(** C9: [STATE_CONNECTED] is never assigned: each entry point, and
    [send_command] and [process_response] under it, leaves the state as
    it was or sets one of Idle, Connecting, Transferring, Error.  So every
    machine reached from [advanced_probe] is in one of these four states
    and has its three callback pointers null, [device_read] and [device_write] answer [-ENODEV] on it without
    touching it, and [device_work_handler] only takes and releases the
    lock: its [send_command] branch does not run. *)
Theorem connected_unreachable k :
  reachable k ->
  (forall c k0,
     state (device (exec c k0)) = state (device k0) \/
     assigned_state (state (device (exec c k0)))) /\
  (forall dev cmd data len ret k0,
     let k1 := snd (send_command dev cmd data len ret k0) in
     state (device k1) = state (device k0) \/
     assigned_state (state (device k1))) /\
  (forall packet k0,
     let k1 := snd (process_response packet k0) in
     state (device k1) = state (device k0) \/
     assigned_state (state (device k1))) /\
  assigned_state (state (device k)) /\
  state (device k) <> STATE_CONNECTED /\
  (on_connect (device k) = None /\ on_disconnect (device k) = None
   /\ on_data (device k) = None) /\
  (forall count nc, device_read count nc k = (- ENODEV, k)) /\
  (forall user count nc ret,
     device_write user count nc ret k = (- ENODEV, k)) /\
  (forall ret,
     device_work_handler ret k = emit EvSpinUnlock (emit EvSpinLock k)).
Proof.
  intros Hk. pose proof (reachable_assigned k Hk) as Ha.
  pose proof (assigned_not_connected _ Ha) as Hn.
  apply state_eqb_neq in Hn.
  split; [apply exec_state|].
  split.
  { intros. destruct (send_command_state dev cmd data len ret k0) as [H|H];
      [by left|right]. subst k1. rewrite H. right. right. by left. }
  split.
  { intros. destruct (process_response_state packet k0) as [H|H];
      [by left|right]. subst k1. rewrite H. by left. }
  split; [done|]. split; [by apply state_eqb_neq|].
  split; [by apply reachable_callbacks_null|].
  split; [|split].
  - intros. unfold device_read. by rewrite Hn.
  - intros. unfold device_write. by rewrite Hn.
  - intros. unfold device_work_handler. cbv zeta. cbn [emit device].
    by rewrite Hn.
Qed.

Lemma connected_unreachable_witness :
  let k := exec (CallBulkComplete
                   (usb_fill_bulk_urb zero_urb 2 TxBytes 4 bulk_complete DEV))
             (exec (CallDelayedWork 0)
                (exec CallOpen (advanced_probe 0x81 0x02 64))) in
  reachable k /\
  state (device k) <> STATE_CONNECTED /\
  device_read 16 0 k = (- ENODEV, k) /\
  device_write [1; 2; 3] 3 0 0 k = (- ENODEV, k).
Proof.
  set (k := exec _ _).
  assert (Hk : reachable k) by (do 3 apply reach_step; apply reach_probe).
  destruct (connected_unreachable k Hk)
    as (_ & _ & _ & _ & Hn & _ & Hr & Hw & _).
  exact (conj Hk (conj Hn (conj (Hr 16 0) (Hw [1; 2; 3] 3 0 0)))).
Defined.

(** ** Payload of submitted packets *)

Lemma payload_header_only cmd len :
  payload (command_packet cmd len []) = replicate PAYLOAD_SIZE 0.
Proof. reflexivity. Qed.

(** [send_command] called with a null [data] pointer logs at most one
    event, a submission of the header-only packet. *)
Lemma send_command_null_data dev cmd len ret k :
  exists evs,
    klog (snd (send_command dev cmd None len ret k)) = klog k ++ evs /\
    Forall zero_payload_submission evs.
Proof.
  destruct dev.
  { exists []. by rewrite app_nil_r. }
  destruct (state_eqb_spec (state (device k)) STATE_ERROR) as [E|E].
  - rewrite send_command_error_state_eq by done.
    exists []. by rewrite app_nil_r.
  - rewrite send_command_not_error by done. cbv zeta. cbn [snd klog].
    eexists. split; [reflexivity|].
    constructor; [|constructor]. split; [reflexivity|].
    apply payload_header_only.
Qed.

Ltac log_unchanged := exists []; rewrite app_nil_r; split; [reflexivity|constructor].

Lemma exec_submissions c k :
  exists evs,
    klog (exec c k) = klog k ++ evs /\ Forall zero_payload_submission evs.
Proof.
  destruct c as [| |count nc|user count nc ret|u|u|ret|ret]; cbn [exec].
  - unfold device_open. cbv zeta. unfold emit, with_device.
    repeat case_match; cbn [snd klog device]; rewrite <- ?app_assoc;
      eexists; (split; [reflexivity|]); repeat constructor.
  - unfold device_release. cbv zeta. unfold emit, with_device.
    repeat case_match; cbn [snd klog device]; rewrite <- ?app_assoc;
      eexists; (split; [reflexivity|]); repeat constructor.
  - unfold device_read. cbv zeta. unfold emit.
    repeat case_match; cbn [snd klog device]; try log_unchanged;
      eexists; (split; [reflexivity|]); repeat constructor.
  - unfold device_write. cbv zeta.
    destruct (negb _); [cbn [snd]; log_unchanged|].
    destruct (negb _).
    { unfold emit, with_device. cbn [snd klog].
      eexists; (split; [reflexivity|]); repeat constructor. }
    match goal with |- context [send_command ?d ?c ?b ?l ?r ?k0] =>
      destruct (send_command_null_data d c l r k0) as (evs & Hl & Hz);
      destruct (send_command d c b l r k0) as [ret' k'] end.
    cbn [snd] in Hl. unfold emit, with_device in Hl. cbn [klog] in Hl.
    exists ([EvCopyFromUser (Z.min count (Z.of_nat PAYLOAD_SIZE) - nc)] ++ evs).
    split.
    + destruct (ret' <? 0); cbn [snd]; rewrite Hl; by rewrite <- app_assoc.
    + apply Forall_app. split; [repeat constructor|done].
  - unfold bulk_complete_callback. cbv zeta. unfold emit, with_device.
    repeat case_match; cbn [klog]; try log_unchanged;
      eexists; (split; [reflexivity|]); repeat constructor.
  - unfold ctrl_complete_callback. unfold with_device.
    repeat case_match; cbn [klog]; log_unchanged.
  - unfold device_work_handler. cbv zeta.
    destruct (state_eqb _ _).
    + match goal with |- context [send_command ?d ?c ?b ?l ?r ?k0] =>
        destruct (send_command_null_data d c l r k0) as (evs & Hl & Hz) end.
      unfold emit at 1. cbn [klog]. rewrite Hl. unfold emit. cbn [klog].
      exists ([EvSpinLock] ++ evs ++ [EvSpinUnlock]). split.
      * by rewrite <- !app_assoc.
      * apply Forall_app. split; [repeat constructor|].
        apply Forall_app. split; [done|repeat constructor].
    + unfold emit. cbn [klog]. rewrite <- app_assoc.
      eexists; (split; [reflexivity|]); repeat constructor.
  - unfold device_delayed_work_handler.
    destruct (_ && _); [|log_unchanged]. cbv zeta.
    match goal with |- context [send_command ?d ?c ?b ?l ?r ?k0] =>
      destruct (send_command_null_data d c l r k0) as (evs & Hl & Hz) end.
    exists evs. split; [|done]. rewrite Hl. reflexivity.
Qed.

(** C10: whatever entry point runs, on whatever machine, each URB
    submission it logs sends [tx_buffer] with all 60 payload bytes zero:
    the three callers of [send_command] pass a null [data] pointer, and
    [send_command] zero-fills the buffer and then copies nothing.  In
    particular [device_write] on a connected device, with the user copy
    complete and the submission accepted, runs [send_command] for Write
    with a null pointer over the buffer that holds the user bytes, ends
    with an all-zero payload and still answers [min(count, 60)]. *)
Theorem submitted_payload_zero c k user count ret :
  (exists evs,
     klog (exec c k) = klog k ++ evs /\
     Forall zero_payload_submission evs) /\
  (state (device k) = STATE_CONNECTED ->
   0 <= ret ->
   let to_copy := Z.min count (Z.of_nat PAYLOAD_SIZE) in
   let copied :=
     emit (EvCopyFromUser to_copy)
       (with_device
          (fun d => set_tx_buffer
                      (memcpy_payload user to_copy (tx_buffer d)) d) k) in
   let r := device_write user count 0 ret k in
   snd r = snd (send_command DEV CMD_WRITE None to_copy ret copied) /\
   fst r = to_copy /\
   tx_buffer (device (snd r)) = command_packet CMD_WRITE to_copy [] /\
   payload (tx_buffer (device (snd r))) = replicate PAYLOAD_SIZE 0 /\
   exists u,
     transfer_buffer u = TxBytes /\
     klog (snd r) = klog k ++
       [EvCopyFromUser to_copy;
        EvSubmitUrb u (command_packet CMD_WRITE to_copy []) ret]).
Proof.
  split; [apply exec_submissions|].
  intros Hst Hret to_copy copied r. subst r.
  unfold device_write. apply state_eqb_eq in Hst. rewrite Hst.
  cbn [negb]. cbv zeta. rewrite Z.eqb_refl. cbn [negb].
  rewrite Z.sub_0_r. fold to_copy. fold copied.
  assert (Hc : state (device copied) <> STATE_ERROR).
  { subst copied. cbn. apply state_eqb_eq in Hst. rewrite Hst. discriminate. }
  rewrite send_command_not_error by done. cbv zeta.
  assert (Hlt : (ret <? 0) = false) by (apply Z.ltb_ge; lia).
  cbv beta iota. rewrite Hlt. cbn [fst snd device tx_buffer klog set_bulk_urb set_state
                    set_tx_buffer].
  repeat split.
  eexists. split.
  2: { subst copied. unfold emit. cbn [klog with_device].
       rewrite <- app_assoc. reflexivity. }
  reflexivity.
Qed.

Lemma submitted_payload_zero_witness :
  let k := with_device (set_state STATE_CONNECTED)
             (advanced_probe 0x81 0x02 64) in
  let r := device_write [0x11; 0x22; 0x33] 3 0 0 k in
  state (device k) = STATE_CONNECTED /\
  0 <= 0 /\
  fst r = 3 /\
  payload (tx_buffer (device (snd r))) = replicate PAYLOAD_SIZE 0.
Proof.
  set (k := with_device (set_state STATE_CONNECTED)
              (advanced_probe 0x81 0x02 64)).
  assert (H1 : state (device k) = STATE_CONNECTED) by reflexivity.
  assert (H2 : 0 <= 0) by lia.
  destruct (submitted_payload_zero CallOpen k [0x11; 0x22; 0x33] 3 0)
    as (_ & Hw).
  destruct (Hw H1 H2) as (_ & R2 & _ & R4 & _).
  exact (conj H1 (conj H2 (conj R2 R4))).
Defined.

End AdvancedDriverSpec.

(** * Properties of the teardown paths *)

Module TeardownSpec.
Import Kapi AdvancedDriver AsyncDemo Teardown.

Lemma steps_async_demo_remove dev :
  steps (snd (async_demo_remove dev))
  = match kthread dev with
    | Some _ => [StopBackgroundTask]
    | None => []
    end ++ [DrainHrtimer; DrainTimer; DrainTasklet; DrainWorkItems].
Proof. unfold async_demo_remove. cbn. by destruct (kthread dev). Qed.

Lemma steps_advanced_disconnect :
  steps (advanced_disconnect DEV)
  = [DrainWorkItems; DrainTransfer; ReleaseRecord].
Proof. reflexivity. Qed.

(** C5, as stated, fails: neither teardown performs the eight steps, and
    [async_demo_remove] stops the background task before it drains the
    timers, the tasklet and the work items. *)
Lemma teardown_order_counterexample :
  let dev := {| running := 1; kthread := Some 1%positive; irq := 42 |} in
  steps (snd (async_demo_remove dev))
  = [StopBackgroundTask; DrainHrtimer; DrainTimer; DrainTasklet;
     DrainWorkItems] /\
  steps (snd (async_demo_remove dev)) <> spec_teardown_order /\
  ~ sublist (steps (snd (async_demo_remove dev))) spec_teardown_order /\
  steps (advanced_disconnect DEV) <> spec_teardown_order.
Proof.
  cbv zeta. rewrite steps_async_demo_remove, steps_advanced_disconnect.
  cbn [kthread app]. unfold spec_teardown_order.
  split; [reflexivity|]. split; [discriminate|]. split; [|discriminate].
  intros H.
  repeat match goal with
         | H : sublist (_ :: _) (_ :: _) |- _ =>
           apply sublist_cons_r in H as [H|(l' & Heq & H)]; [|simplify_eq]
         | H : sublist (_ :: _) [] |- _ =>
           apply sublist_nil_r in H; discriminate
         end.
Qed.

(** C5, amended: each teardown has its own fixed sequence of calls.
    [async_demo_remove] answers 0 after these calls and no others, in
    this order: clear the running flag; when there is a background task,
    [kthread_stop] and the wait for its completion signal; then
    [hrtimer_cancel], [del_timer_sync], [tasklet_kill],
    [cancel_work_sync] and [cancel_delayed_work_sync], which is the order
    of steps (2) to (5).  It stops no interrupt source, waits for no
    transfer and releases nothing itself.  [advanced_disconnect], for a
    non-null device, makes these calls and no others, in this order:
    clear the interface data, [cancel_work_sync],
    [cancel_delayed_work_sync], [usb_kill_urb] for the control and the
    bulk URB, [usb_free_urb] for both, [usb_put_dev], [kfree]: steps
    (5), (7), (8) in that order, the record released by the last call.
    In both, no drain follows the release of the record; with no device
    [advanced_disconnect] calls nothing. *)
Theorem teardown_orders dev :
  let '(ret, dev', calls) := async_demo_remove dev in
  calls
  = [atomic_set_running 0]
    ++ match kthread dev with
       | Some _ => [kthread_stop; wait_for_completion]
       | None => []
       end
    ++ [hrtimer_cancel; del_timer_sync; tasklet_kill; cancel_work_sync;
        cancel_delayed_work_sync] /\
  dev' = {| running := 0; kthread := kthread dev; irq := irq dev |} /\
  advanced_disconnect DEV
  = [usb_set_intfdata_null; cancel_work_sync; cancel_delayed_work_sync;
     usb_kill_urb CtrlUrb; usb_kill_urb BulkUrb;
     usb_free_urb CtrlUrb; usb_free_urb BulkUrb;
     usb_put_dev; kfree_dev] /\
  ret = 0 /\
  running dev' = 0 /\
  head calls = Some (atomic_set_running 0) /\
  steps calls
  = match kthread dev with
    | Some _ => [StopBackgroundTask]
    | None => []
    end ++ [DrainHrtimer; DrainTimer; DrainTasklet; DrainWorkItems] /\
  sublist [DrainHrtimer; DrainTimer; DrainTasklet; DrainWorkItems]
    spec_teardown_order /\
  (StopInterruptSource ∉ steps calls) /\
  (DrainTransfer ∉ steps calls) /\
  (ReleaseRecord ∉ steps calls) /\
  drains_before_release calls = true /\
  steps (advanced_disconnect DEV)
  = [DrainWorkItems; DrainTransfer; ReleaseRecord] /\
  sublist (steps (advanced_disconnect DEV)) spec_teardown_order /\
  last (advanced_disconnect DEV) = Some kfree_dev /\
  drains_before_release (advanced_disconnect DEV) = true /\
  advanced_disconnect NULL = [].
Proof.
  pose proof (steps_async_demo_remove dev) as Hs.
  destruct (async_demo_remove dev) as [[ret dev'] calls] eqn:E.
  cbn [snd] in Hs. unfold async_demo_remove in E.
  injection E as <- <- <-.
  assert (Hsub : sublist [DrainHrtimer; DrainTimer; DrainTasklet; DrainWorkItems]
                   spec_teardown_order).
  { unfold spec_teardown_order.
    apply sublist_cons. do 4 apply sublist_skip.
    apply sublist_nil_l. }
  split; [reflexivity|]. split; [reflexivity|]. split; [reflexivity|].
  split; [reflexivity|]. split; [reflexivity|]. split; [reflexivity|].
  split; [exact Hs|]. split; [exact Hsub|].
  rewrite Hs.
  split; [|split; [|split]];
    try (destruct (kthread dev); cbn [app]; intros Hin;
         repeat (apply elem_of_cons in Hin as [Hin|Hin]; [discriminate|]);
         by apply elem_of_nil in Hin).
  split; [by destruct (kthread dev)|].
  split; [reflexivity|].
  split.
  { rewrite steps_advanced_disconnect. unfold spec_teardown_order.
    do 4 apply sublist_cons. apply sublist_skip. apply sublist_cons.
    do 2 apply sublist_skip. apply sublist_nil_l. }
  repeat split.
Qed.

End TeardownSpec.

(** * Further properties of the advanced driver *)

Module AdvancedDriverProps.
Import AdvancedDriver AdvancedDriverSpec AdvancedAttach AdvancedChecks.

(** ** Release and open *)

(** X1: [device_release] answers 0 from every state and leaves the state
    [STATE_IDLE] with every other field as it was; the [on_disconnect]
    call, made exactly when the pointer is set, comes before the lock is
    taken. *)
Theorem device_release_idle k :
  let r := device_release k in
  fst r = 0 /\
  device (snd r) = set_state STATE_IDLE (device k) /\
  klog (snd r) = klog k ++
                 match on_disconnect (device k) with
                 | Some f => [EvOnDisconnect f]
                 | None => []
                 end ++ [EvSpinLock; EvSpinUnlock].
Proof.
  cbv zeta. unfold device_release. cbv zeta. unfold with_device, emit.
  destruct (on_disconnect (device k)) as [f|];
    cbn [fst snd device klog app]; rewrite <- ?app_assoc; done.
Qed.

(** X2: of two opens in a row the second always answers [-EBUSY],
    whatever the state before the first; an open right after a release
    always answers 0 and leaves the state [STATE_CONNECTING]. *)
Theorem open_release_compose k :
  fst (device_open (snd (device_open k))) = - EBUSY /\
  state (device (snd (device_open (snd (device_open k)))))
  = state (device (snd (device_open k))) /\
  fst (device_open (snd (device_release k))) = 0 /\
  state (device (snd (device_open (snd (device_release k)))))
  = STATE_CONNECTING.
Proof.
  assert (Hbusy : forall k0, state (device k0) <> STATE_IDLE ->
            fst (device_open k0) = - EBUSY /\
            state (device (snd (device_open k0))) = state (device k0)).
  { intros k0 H. apply state_eqb_neq in H. unfold device_open. cbv zeta.
    cbn [emit device]. by rewrite H. }
  assert (Hfirst : state (device (snd (device_open k))) <> STATE_IDLE).
  { unfold device_open. cbv zeta. cbn [emit device].
    destruct (state_eqb_spec (state (device k)) STATE_IDLE) as [E|E];
      cbn [negb]; [by destruct (on_connect _)|done]. }
  destruct (Hbusy _ Hfirst) as [B1 B2].
  split; [exact B1|]. split; [exact B2|].
  unfold device_release, device_open. cbv zeta.
  destruct (on_disconnect (device k)); cbn; by destruct (on_connect _).
Qed.

(** ** Submission *)

Lemma length_command_packet cmd len body :
  (length body <= PAYLOAD_SIZE)%nat ->
  length (command_packet cmd len body) = PACKET_SIZE.
Proof.
  intros H. unfold command_packet.
  rewrite length_app, length_app, length_replicate. cbn [length].
  unfold PACKET_SIZE, PAYLOAD_SIZE in *. lia.
Qed.

(** The buffer [send_command] builds, on a device not in
    [STATE_ERROR]. *)
Lemma send_command_tx cmd data len ret k :
  state (device k) <> STATE_ERROR ->
  exists body,
    (length body <= PAYLOAD_SIZE)%nat /\
    tx_buffer (device (snd (send_command DEV cmd data len ret k)))
    = command_packet cmd len body.
Proof.
  intros Hst. rewrite send_command_not_error by done. cbv zeta.
  cbn [snd device tx_buffer set_bulk_urb set_state set_tx_buffer].
  destruct data as [src|]; [|exists []; split; [cbn; lia|done]].
  destruct ((0 <? len) && (len <=? Z.of_nat PAYLOAD_SIZE)) eqn:E;
    [|exists []; split; [cbn; lia|done]].
  apply andb_prop in E as [_ E]. apply Z.leb_le in E.
  eexists. split; [|reflexivity]. rewrite length_take. lia.
Qed.

(** X3: a submission of at most 60 payload bytes stays inside the
    buffer.  On a device not in [STATE_ERROR] and for [0 <= len <= 60],
    [send_command] leaves [tx_buffer] 64 bytes long and fills the bulk
    URB with the bytes of [tx_buffer], the length [4 + len] (at most 64),
    the bulk-out endpoint, [bulk_complete_callback] and the device as
    context; the receive buffer, the control word, the configuration and
    [last_result] keep their values. *)
Theorem send_command_in_bounds cmd data len ret k :
  state (device k) <> STATE_ERROR ->
  0 <= len <= Z.of_nat PAYLOAD_SIZE ->
  let k' := snd (send_command DEV cmd data len ret k) in
  let u := bulk_urb (device k') in
  length (tx_buffer (device k')) = PACKET_SIZE /\
  transfer_buffer u = TxBytes /\
  transfer_buffer_length u = 4 + len /\
  transfer_buffer_length u <= Z.of_nat (length (tx_buffer (device k'))) /\
  urb_pipe u = bulk_out_addr (device k) /\
  urb_complete u = Some bulk_complete /\
  urb_context u = DEV /\
  rx_buffer (device k') = rx_buffer (device k) /\
  ctrl_raw (device k') = ctrl_raw (device k) /\
  config (device k') = config (device k) /\
  last_result (device k') = last_result (device k).
Proof.
  intros Hst Hlen k' u.
  destruct (send_command_tx cmd data len ret k Hst) as (body & Hb & Htx).
  fold k' in Htx.
  assert (Hl : length (tx_buffer (device k')) = PACKET_SIZE).
  { rewrite Htx. by apply length_command_packet. }
  assert (Hsz : u32 (to_int (size_t (4 + len))) = 4 + len).
  { unfold PAYLOAD_SIZE in Hlen. unfold u32, to_int, size_t.
    rewrite (Z.mod_small (4 + len)) by lia.
    rewrite (Z.mod_small (4 + len + 2 ^ 31)) by lia.
    replace (4 + len + 2 ^ 31 - 2 ^ 31) with (4 + len) by lia.
    apply Z.mod_small. lia. }
  subst u k'. rewrite send_command_not_error in * by done. cbv zeta in *.
  cbn [snd device bulk_urb set_bulk_urb set_state set_tx_buffer tx_buffer
       rx_buffer ctrl_raw config last_result usb_fill_bulk_urb
       transfer_buffer transfer_buffer_length urb_pipe urb_complete
       urb_context] in *.
  rewrite Hl, Hsz. unfold PACKET_SIZE, PAYLOAD_SIZE, usb_sndbulkpipe in *.
  repeat split; lia.
Qed.

Lemma send_command_in_bounds_witness :
  let k := advanced_probe 0x81 0x02 64 in
  let k' := snd (send_command DEV CMD_WRITE (Some (DataOther (replicate 60 1))) 60 0 k) in
  state (device k) <> STATE_ERROR /\
  0 <= 60 <= Z.of_nat PAYLOAD_SIZE /\
  length (tx_buffer (device k')) = PACKET_SIZE /\
  transfer_buffer_length (bulk_urb (device k')) = 4 + 60.
Proof.
  assert (H1 : state (device (advanced_probe 0x81 0x02 64)) <> STATE_ERROR)
    by discriminate.
  assert (H2 : 0 <= 60 <= Z.of_nat PAYLOAD_SIZE)
    by (vm_compute; split; discriminate).
  destruct (send_command_in_bounds CMD_WRITE (Some (DataOther (replicate 60 1))) 60 0
              (advanced_probe 0x81 0x02 64) H1 H2) as (R1 & _ & R3 & _).
  exact (conj H1 (conj H2 (conj R1 R3))).
Defined.

(** X4: [send_command] does not undo its work when the submission is
    refused.  On a device not in [STATE_ERROR] it answers what
    [usb_submit_urb] answers, a negative error code included, and the
    state is [STATE_TRANSFERRING] all the same; a [device_open] after it
    then answers [-EBUSY] and the retry policy does nothing. *)
Theorem send_command_no_rollback cmd data len ret k :
  state (device k) <> STATE_ERROR ->
  let r := send_command DEV cmd data len ret k in
  fst r = ret /\
  state (device (snd r)) = STATE_TRANSFERRING /\
  fst (device_open (snd r)) = - EBUSY /\
  forall ret', device_delayed_work_handler ret' (snd r) = snd r.
Proof.
  intros Hst r. subst r. rewrite send_command_not_error by done.
  cbv zeta. cbn [fst snd]. split; [done|]. split; [done|]. split; [done|].
  intros ret'. reflexivity.
Qed.

Lemma send_command_no_rollback_witness :
  let k := advanced_probe 0x81 0x02 64 in
  let r := send_command DEV CMD_STATUS None 0 (- ENODEV) k in
  state (device k) <> STATE_ERROR /\
  fst r = - ENODEV /\
  state (device (snd r)) = STATE_TRANSFERRING.
Proof.
  assert (H1 : state (device (advanced_probe 0x81 0x02 64)) <> STATE_ERROR)
    by discriminate.
  destruct (send_command_no_rollback CMD_STATUS None 0 (- ENODEV)
              (advanced_probe 0x81 0x02 64) H1) as (R1 & R2 & _).
  exact (conj H1 (conj R1 R2)).
Defined.

Lemma lor_bytes_mod len :
  Z.lor (Z.land len 0xFF) (Z.shiftl (Z.land (Z.shiftr len 8) 0xFF) 8)
  = len mod 2 ^ 16.
Proof.
  rewrite <- Z.land_ones by lia.
  change 0xFF with (Z.ones 8).
  apply Z.bits_inj'. intros n Hn.
  rewrite Z.lor_spec, !Z.land_spec.
  destruct (Z.lt_ge_cases n 8) as [Hlt|Hge].
  - rewrite Z.shiftl_spec_low by lia.
    rewrite !Z.ones_spec_low by lia. by rewrite orb_false_r.
  - rewrite Z.shiftl_spec by lia. rewrite Z.land_spec, Z.shiftr_spec by lia.
    replace (n - 8 + 8) with n by lia.
    rewrite (Z.ones_spec_high 8 n) by lia. rewrite andb_false_r, orb_false_l.
    destruct (Z.lt_ge_cases n 16) as [Hlt|Hge'].
    + by rewrite !Z.ones_spec_low by lia.
    + by rewrite !Z.ones_spec_high by lia.
Qed.

(** X5: the length field of the header is 16 bits wide.  Whatever [len]
    is, the header [send_command] writes on a device not in
    [STATE_ERROR] carries [len] modulo 65536, little-endian, after the
    sync byte and the command code. *)
Theorem send_command_length_field cmd data len ret k :
  state (device k) <> STATE_ERROR ->
  let tx := tx_buffer (device (snd (send_command DEV cmd data len ret k))) in
  header tx 0 = 0xAA /\
  header tx 1 = cmd_value cmd /\
  header_length tx = len mod 2 ^ 16.
Proof.
  intros Hst tx.
  destruct (send_command_tx cmd data len ret k Hst) as (body & Hb & Htx).
  subst tx. rewrite Htx. split; [done|]. split; [done|].
  unfold header_length, command_packet, header. cbn [app lookup list_lookup
    default]. apply lor_bytes_mod.
Qed.

Lemma send_command_length_field_witness :
  let k := advanced_probe 0x81 0x02 64 in
  let tx := tx_buffer (device (snd (send_command DEV CMD_WRITE None 65537 0 k))) in
  state (device k) <> STATE_ERROR /\
  header_length tx = 1.
Proof.
  assert (H1 : state (device (advanced_probe 0x81 0x02 64)) <> STATE_ERROR)
    by discriminate.
  destruct (send_command_length_field CMD_WRITE None 65537 0
              (advanced_probe 0x81 0x02 64) H1) as (_ & _ & R).
  exact (conj H1 R).
Defined.

(** ** What the entry points keep *)

Lemma length_memcpy_payload src n pkt :
  length (memcpy_payload src n pkt) = length pkt.
Proof. unfold memcpy_payload. apply length_inserts. Qed.

Lemma send_command_tx_length dev cmd data len ret k :
  length (tx_buffer (device k)) = PACKET_SIZE ->
  length (tx_buffer (device (snd (send_command dev cmd data len ret k))))
  = PACKET_SIZE.
Proof.
  intros Hl. destruct dev; [done|].
  destruct (state_eqb_spec (state (device k)) STATE_ERROR) as [E|E].
  - by rewrite send_command_error_state_eq.
  - destruct (send_command_tx cmd data len ret k E) as (body & Hb & ->).
    by apply length_command_packet.
Qed.

Lemma send_command_fixed dev cmd data len ret k :
  same_fixed (device k) (device (snd (send_command dev cmd data len ret k))).
Proof.
  destruct dev; [done|].
  destruct (state_eqb_spec (state (device k)) STATE_ERROR) as [E|E].
  - by rewrite send_command_error_state_eq.
  - by rewrite send_command_not_error.
Qed.

Lemma exec_fixed c k : same_fixed (device k) (device (exec c k)).
Proof.
  destruct c as [| |count nc|user count nc ret|u|u|ret|ret]; cbn [exec].
  - unfold device_open. cbv zeta. repeat case_match; done.
  - unfold device_release. cbv zeta. repeat case_match; done.
  - unfold device_read. cbv zeta. repeat case_match; done.
  - unfold device_write. cbv zeta.
    destruct (negb _); [done|]. destruct (negb _); [done|].
    match goal with |- context [send_command ?d ?c ?b ?l ?r ?k0] =>
      pose proof (send_command_fixed d c b l r k0) as H;
      destruct (send_command d c b l r k0) as [ret' k'] end.
    destruct (ret' <? 0); exact H.
  - unfold bulk_complete_callback. cbv zeta. repeat case_match; done.
  - unfold ctrl_complete_callback. repeat case_match; done.
  - unfold device_work_handler. cbv zeta. cbn [emit device].
    destruct (state_eqb _ _); [|done].
    match goal with |- context [send_command ?d ?c ?b ?l ?r ?k0] =>
      exact (send_command_fixed d c b l r k0) end.
  - unfold device_delayed_work_handler.
    destruct (_ && _); [|done]. cbv zeta.
    match goal with |- context [send_command ?d ?c ?b ?l ?r ?k0] =>
      exact (send_command_fixed d c b l r k0) end.
Qed.

Lemma exec_tx_length c k :
  length (tx_buffer (device k)) = PACKET_SIZE ->
  length (tx_buffer (device (exec c k))) = PACKET_SIZE.
Proof.
  intros Hl.
  destruct c as [| |count nc|user count nc ret|u|u|ret|ret]; cbn [exec].
  - unfold device_open. cbv zeta. repeat case_match; done.
  - unfold device_release. cbv zeta. repeat case_match; done.
  - unfold device_read. cbv zeta. repeat case_match; done.
  - unfold device_write. cbv zeta.
    destruct (negb _); [done|].
    destruct (negb _).
    { cbn. by rewrite length_memcpy_payload. }
    match goal with |- context [send_command ?d ?c ?b ?l ?r ?k0] =>
      pose proof (send_command_tx_length d c b l r k0) as H;
      destruct (send_command d c b l r k0) as [ret' k'] end.
    cbn [snd] in H.
    destruct (ret' <? 0); cbn [snd]; apply H; cbn;
      by rewrite length_memcpy_payload.
  - unfold bulk_complete_callback. cbv zeta. repeat case_match; done.
  - unfold ctrl_complete_callback. repeat case_match; done.
  - unfold device_work_handler. cbv zeta. cbn [emit device].
    destruct (state_eqb _ _); [|done].
    by apply send_command_tx_length.
  - unfold device_delayed_work_handler.
    destruct (_ && _); [|done]. cbv zeta.
    by apply send_command_tx_length.
Qed.

(** X6: no entry point writes the receive buffer, the configuration, the
    endpoint parameters or the control URB, and none changes the size of
    the transmit buffer: after any call on any machine these are what
    they were. *)
Theorem exec_keeps_fixed_fields c k :
  rx_buffer (device (exec c k)) = rx_buffer (device k) /\
  config (device (exec c k)) = config (device k) /\
  bulk_in_addr (device (exec c k)) = bulk_in_addr (device k) /\
  bulk_out_addr (device (exec c k)) = bulk_out_addr (device k) /\
  bulk_in_size (device (exec c k)) = bulk_in_size (device k) /\
  ctrl_urb (device (exec c k)) = ctrl_urb (device k) /\
  (length (tx_buffer (device k)) = PACKET_SIZE ->
   length (tx_buffer (device (exec c k))) = PACKET_SIZE).
Proof.
  destruct (exec_fixed c k) as (F1 & F2 & F3 & F4 & F5 & F6).
  repeat (split; [assumption|]). apply exec_tx_length.
Qed.

Lemma exec_keeps_fixed_fields_witness :
  let k := advanced_probe 0x81 0x02 64 in
  let k' := exec (CallWrite [1; 2; 3] 3 0 0)
              (with_device (set_state STATE_CONNECTED) k) in
  length (tx_buffer (device (with_device (set_state STATE_CONNECTED) k)))
  = PACKET_SIZE /\
  length (tx_buffer (device k')) = PACKET_SIZE /\
  rx_buffer (device k') = replicate PACKET_SIZE 0.
Proof.
  set (k := with_device (set_state STATE_CONNECTED)
              (advanced_probe 0x81 0x02 64)).
  assert (H : length (tx_buffer (device k)) = PACKET_SIZE) by reflexivity.
  destruct (exec_keeps_fixed_fields (CallWrite [1; 2; 3] 3 0 0) k)
    as (R1 & _ & _ & _ & _ & _ & R7).
  exact (conj H (conj (R7 H) R1)).
Defined.

Lemma exec_last_result c k :
  last_result (device (exec c k)) = last_result (device k) \/
  last_result (device (exec c k)) = RESULT_OK \/
  last_result (device (exec c k)) = RESULT_INVALID.
Proof.
  assert (Hs : forall d cm b l r k0,
            last_result (device (snd (send_command d cm b l r k0)))
            = last_result (device k0)).
  { intros d cm b l r k0. destruct d; [done|].
    destruct (state_eqb_spec (state (device k0)) STATE_ERROR) as [E|E].
    - by rewrite send_command_error_state_eq.
    - by rewrite send_command_not_error. }
  destruct c as [| |count nc|user count nc ret|u|u|ret|ret]; cbn [exec].
  - unfold device_open. cbv zeta. repeat case_match; auto.
  - unfold device_release. cbv zeta. repeat case_match; auto.
  - unfold device_read. cbv zeta. repeat case_match; auto.
  - unfold device_write. cbv zeta.
    destruct (negb _); [auto|]. destruct (negb _); [auto|].
    match goal with |- context [send_command ?d ?c ?b ?l ?r ?k0] =>
      pose proof (Hs d c b l r k0) as H;
      destruct (send_command d c b l r k0) as [ret' k'] end.
    left. destruct (ret' <? 0); exact H.
  - unfold bulk_complete_callback. cbv zeta. repeat case_match; cbn; auto.
  - unfold ctrl_complete_callback. repeat case_match; auto.
  - unfold device_work_handler. cbv zeta. cbn [emit device].
    destruct (state_eqb _ _); [|auto]. left. by rewrite Hs.
  - unfold device_delayed_work_handler.
    destruct (_ && _); [|auto]. cbv zeta. left. by rewrite Hs.
Qed.

(** X7: on every machine reached from [advanced_probe], the transmit
    buffer is 64 bytes long, the receive buffer is still 64 zero bytes
    (nothing ever fills it), the configuration is the one the probe set
    (auto-reconnect on, timeout 1000, 3 retries), the control URB is
    untouched, and [last_result] is [RESULT_OK] or [RESULT_INVALID]:
    [RESULT_BUSY] and [RESULT_NOMEM] are never recorded. *)
Theorem reachable_invariants k :
  reachable k ->
  length (tx_buffer (device k)) = PACKET_SIZE /\
  rx_buffer (device k) = replicate PACKET_SIZE 0 /\
  config (device k)
  = {| timeout_ms := 1000; retry_count := 3; auto_reconnect := true |} /\
  ctrl_urb (device k) = zero_urb /\
  (last_result (device k) = RESULT_OK \/
   last_result (device k) = RESULT_INVALID).
Proof.
  induction 1 as [bi bo mp|c k Hk (I1 & I2 & I3 & I4 & I5)].
  - repeat split. by left.
  - destruct (exec_fixed c k) as (F1 & F2 & _ & _ & _ & F6).
    split; [by apply exec_tx_length|].
    split; [by rewrite F1|]. split; [by rewrite F2|].
    split; [by rewrite F6|].
    destruct (exec_last_result c k) as [E|[E|E]]; rewrite E; auto.
Qed.

Lemma reachable_invariants_witness :
  let k := exec (CallDelayedWork 0)
             (exec (CallBulkComplete
                      {| urb_status := - 71; urb_context := DEV;
                         urb_pipe := 2; transfer_buffer := TxBytes;
                         transfer_buffer_length := 4; actual_length := 0;
                         urb_complete := Some bulk_complete |})
                (exec CallOpen (advanced_probe 0x81 0x02 64))) in
  reachable k /\
  rx_buffer (device k) = replicate PACKET_SIZE 0 /\
  auto_reconnect (config (device k)) = true /\
  last_result (device k) = RESULT_INVALID.
Proof.
  set (k := exec _ _).
  assert (Hk : reachable k) by (do 3 apply reach_step; apply reach_probe).
  destruct (reachable_invariants k Hk) as (_ & R2 & R3 & _ & _).
  split; [exact Hk|]. split; [exact R2|]. split; [by rewrite R3|].
  reflexivity.
Defined.

(** ** Leaving the error state *)

(** X8: a call takes the device out of [STATE_ERROR] exactly when it is
    a release, a bulk completion for this device with status 0, or a
    run of the delayed work with auto-reconnect set.  Opens, reads,
    writes, control completions, the immediate work and failed
    completions leave it in [STATE_ERROR]. *)
Theorem error_state_exits c k :
  state (device k) = STATE_ERROR ->
  (state (device (exec c k)) <> STATE_ERROR <->
   c = CallRelease \/
   (exists u, c = CallBulkComplete u /\ urb_context u = DEV
              /\ urb_status u = 0) \/
   (exists ret, c = CallDelayedWork ret
                /\ auto_reconnect (config (device k)) = true)).
Proof.
  intros Hst. pose proof Hst as Hb. apply state_eqb_eq in Hb.
  destruct c as [| |count nc|user count nc ret|u|u|ret|ret]; cbn [exec].
  - unfold device_open. cbv zeta. cbn [emit device]. rewrite Hst. cbn.
    rewrite Hst. split; [done|]. intros [?|[(?&?&?)|(?&?&?)]]; done.
  - unfold device_release. cbv zeta.
    split; [by left|]. intros _. by destruct (on_disconnect _).
  - unfold device_read. rewrite Hst. cbn. rewrite Hst.
    split; [done|]. intros [?|[(?&?&?)|(?&?&?)]]; done.
  - unfold device_write. rewrite Hst. cbn. rewrite Hst.
    split; [done|]. intros [?|[(?&?&?)|(?&?&?)]]; done.
  - unfold bulk_complete_callback. cbv zeta.
    destruct (urb_context u) eqn:Hc.
    { rewrite Hst. split; [done|].
      intros [?|[(u'&?&?&?)|(?&?&?)]]; [done| |done]. congruence. }
    destruct (Z.eqb_spec (urb_status u) 0) as [E|E].
    + split.
      * intros _. right. left. by exists u.
      * intros _. by destruct (on_data _).
    + split.
      * intros H. exfalso. apply H. by repeat case_match.
      * intros [?|[(u'&?&?&?)|(?&?&?)]]; [done| |done]. congruence.
  - unfold ctrl_complete_callback.
    split.
    + intros H. exfalso. apply H. by repeat case_match.
    + intros [?|[(?&?&?)|(?&?&?)]]; done.
  - unfold device_work_handler. cbv zeta. cbn [emit device].
    rewrite Hst. cbn. rewrite Hst.
    split; [done|]. intros [?|[(?&?&?)|(?&?&?)]]; done.
  - unfold device_delayed_work_handler. rewrite Hb. cbn [andb].
    destruct (auto_reconnect (config (device k))) eqn:Ha.
    + split.
      * intros _. right. right. by exists ret.
      * intros _. cbv zeta.
        rewrite send_command_not_error by (cbn; discriminate). done.
    + rewrite Hst. split; [done|].
      intros [?|[(?&?&?)|(?&?&?)]]; done.
Qed.

Lemma error_state_exits_witness :
  let k := with_device (set_state STATE_ERROR) (advanced_probe 0x81 0x02 64) in
  state (device k) = STATE_ERROR /\
  state (device (exec (CallDelayedWork 0) k)) <> STATE_ERROR /\
  ~ state (device (exec CallOpen k)) <> STATE_ERROR.
Proof.
  set (k := with_device (set_state STATE_ERROR) (advanced_probe 0x81 0x02 64)).
  assert (H : state (device k) = STATE_ERROR) by reflexivity.
  split; [exact H|]. split.
  - apply (error_state_exits (CallDelayedWork 0) k H).
    right. right. exists 0. split; reflexivity.
  - intros Hn. apply (error_state_exits CallOpen k H) in Hn.
    destruct Hn as [Hn|[(u & Hn & _)|(r & Hn & _)]]; discriminate.
Defined.

(** X9: recovery on a reachable machine.  From [STATE_ERROR], one run
    of the delayed work followed by a successful bulk completion leaves
    the device in [STATE_IDLE] with [RESULT_OK], after exactly one
    submission; a [device_open] then answers 0. *)
Theorem error_recovery k ret u :
  reachable k ->
  state (device k) = STATE_ERROR ->
  urb_context u = DEV ->
  urb_status u = 0 ->
  let k1 := exec (CallDelayedWork ret) k in
  let k2 := exec (CallBulkComplete u) k1 in
  state (device k1) = STATE_TRANSFERRING /\
  filter (fun e => is_submission e = true) (klog k1)
  = filter (fun e => is_submission e = true) (klog k)
    ++ [EvSubmitUrb (bulk_urb (device k1)) (command_packet CMD_RESET 0 []) ret] /\
  state (device k2) = STATE_IDLE /\
  last_result (device k2) = RESULT_OK /\
  klog k2 = klog k1 /\
  fst (device_open k2) = 0.
Proof.
  intros Hk Hst Hc Hs k1 k2.
  destruct (reachable_callbacks_null k Hk) as (_ & _ & Hd).
  assert (Ha : auto_reconnect (config (device k)) = true).
  { clear -Hk. induction Hk as [bi bo mp|c k Hk IH]; [done|].
    destruct (exec_fixed c k) as (_ & F2 & _). by rewrite F2. }
  assert (E1 : k1 = snd (send_command DEV CMD_RESET None 0 ret
                           (with_device (set_state STATE_CONNECTING) k))).
  { subst k1. cbn [exec]. unfold device_delayed_work_handler.
    apply state_eqb_eq in Hst. by rewrite Hst, Ha. }
  rewrite send_command_not_error in E1 by (cbn; discriminate).
  cbv zeta in E1. cbn [snd] in E1.
  assert (Hd1 : on_data (device k1) = None) by (by rewrite E1).
  assert (E2 : k2 = with_device (set_last_result RESULT_OK)
                      (with_device (set_state STATE_IDLE) k1)).
  { subst k2. cbn [exec]. unfold bulk_complete_callback.
    rewrite Hc, Hs. cbn [Z.eqb]. cbv zeta.
    cbn [with_device device on_data set_last_result set_state].
    by rewrite Hd1. }
  split; [by rewrite E1|].
  split.
  { rewrite E1. cbn [klog device bulk_urb set_bulk_urb].
    by rewrite filter_app. }
  rewrite E2. repeat split.
Qed.

Lemma error_recovery_witness :
  let k := exec (CallBulkComplete
                   {| urb_status := - 71; urb_context := DEV; urb_pipe := 2;
                      transfer_buffer := TxBytes; transfer_buffer_length := 4;
                      actual_length := 0;
                      urb_complete := Some bulk_complete |})
             (exec CallOpen (advanced_probe 0x81 0x02 64)) in
  let u := {| urb_status := 0; urb_context := DEV; urb_pipe := 2;
              transfer_buffer := TxBytes; transfer_buffer_length := 4;
              actual_length := 4; urb_complete := Some bulk_complete |} in
  reachable k /\
  state (device k) = STATE_ERROR /\
  state (device (exec (CallBulkComplete u) (exec (CallDelayedWork 0) k)))
  = STATE_IDLE.
Proof.
  set (k := exec _ _).
  set (u := {| urb_status := 0; urb_context := DEV; urb_pipe := 2;
               transfer_buffer := TxBytes; transfer_buffer_length := 4;
               actual_length := 4; urb_complete := Some bulk_complete |}).
  assert (Hk : reachable k) by (do 2 apply reach_step; apply reach_probe).
  assert (Hst : state (device k) = STATE_ERROR) by reflexivity.
  assert (Hc : urb_context u = DEV) by reflexivity.
  assert (Hs : urb_status u = 0) by reflexivity.
  destruct (error_recovery k 0 u Hk Hst Hc Hs) as (_ & _ & R & _).
  exact (conj Hk (conj Hst R)).
Defined.

(** ** Locking *)

Lemma send_command_events dev cmd data len ret k :
  exists evs,
    klog (snd (send_command dev cmd data len ret k)) = klog k ++ evs /\
    (evs = [] \/ exists u mem, evs = [EvSubmitUrb u mem ret]).
Proof.
  destruct dev.
  { exists []. rewrite app_nil_r. auto. }
  destruct (state_eqb_spec (state (device k)) STATE_ERROR) as [E|E].
  - rewrite send_command_error_state_eq by done.
    exists []. rewrite app_nil_r. auto.
  - rewrite send_command_not_error by done. cbv zeta. cbn [snd klog].
    eexists. split; [reflexivity|]. right. eauto.
Qed.

(** X10: every entry point leaves the spinlock as it found it and never
    calls back with it held: scanning what a call appends to the log,
    starting with the lock free, the lock is never taken twice, never
    released without being held, no [on_connect], [on_disconnect] or
    [on_data] call falls between a lock and its unlock, and the lock is
    free at the end. *)
Theorem exec_lock_discipline c k :
  exists evs,
    klog (exec c k) = klog k ++ evs /\ lock_scan false evs = Some false.
Proof.
  destruct c as [| |count nc|user count nc ret|u|u|ret|ret]; cbn [exec].
  - unfold device_open. cbv zeta. unfold emit, with_device.
    repeat case_match; cbn [snd klog device]; rewrite <- ?app_assoc;
      eexists; (split; [reflexivity|]); reflexivity.
  - unfold device_release. cbv zeta. unfold emit, with_device.
    repeat case_match; cbn [snd klog device]; rewrite <- ?app_assoc;
      eexists; (split; [reflexivity|]); reflexivity.
  - unfold device_read. cbv zeta. unfold emit.
    repeat case_match; cbn [snd klog device];
      try (exists []; by rewrite app_nil_r);
      eexists; (split; [reflexivity|]); reflexivity.
  - unfold device_write. cbv zeta.
    destruct (negb _); [exists []; by rewrite app_nil_r|].
    destruct (negb _).
    { unfold emit, with_device. cbn [snd klog].
      eexists; (split; [reflexivity|]); reflexivity. }
    match goal with |- context [send_command ?d ?c ?b ?l ?r ?k0] =>
      destruct (send_command_events d c b l r k0) as (evs & Hl & Hz);
      destruct (send_command d c b l r k0) as [ret' k'] end.
    cbn [snd] in Hl. unfold emit, with_device in Hl. cbn [klog] in Hl.
    exists ([EvCopyFromUser (Z.min count (Z.of_nat PAYLOAD_SIZE) - nc)] ++ evs).
    split.
    + destruct (ret' <? 0); cbn [snd]; rewrite Hl; by rewrite <- app_assoc.
    + destruct Hz as [->|(u & mem & ->)]; reflexivity.
  - unfold bulk_complete_callback. cbv zeta. unfold emit, with_device.
    repeat case_match; cbn [klog]; try (exists []; by rewrite app_nil_r);
      eexists; (split; [reflexivity|]); reflexivity.
  - unfold ctrl_complete_callback. unfold with_device.
    repeat case_match; cbn [klog]; exists []; by rewrite app_nil_r.
  - unfold device_work_handler. cbv zeta.
    destruct (state_eqb _ _).
    + match goal with |- context [send_command ?d ?c ?b ?l ?r ?k0] =>
        destruct (send_command_events d c b l r k0) as (evs & Hl & Hz) end.
      unfold emit at 1. cbn [klog]. rewrite Hl. unfold emit. cbn [klog].
      exists ([EvSpinLock] ++ evs ++ [EvSpinUnlock]). split.
      * by rewrite <- !app_assoc.
      * destruct Hz as [->|(u & mem & ->)]; reflexivity.
    + unfold emit. cbn [klog]. rewrite <- app_assoc.
      eexists; (split; [reflexivity|]); reflexivity.
  - unfold device_delayed_work_handler.
    destruct (_ && _); [|exists []; by rewrite app_nil_r]. cbv zeta.
    match goal with |- context [send_command ?d ?c ?b ?l ?r ?k0] =>
      destruct (send_command_events d c b l r k0) as (evs & Hl & Hz) end.
    exists evs. split; [by rewrite Hl|].
    destruct Hz as [->|(u & mem & ->)]; reflexivity.
Qed.

(** X11: the immediate work on a connected device submits with the
    spinlock held.  In [STATE_CONNECTED], [device_work_handler] appends
    to the log the lock, one submission of the 4-byte Status packet (no
    payload) and the unlock, in that order, and leaves the state
    [STATE_TRANSFERRING]; in every other state it appends the lock and
    the unlock only and changes nothing in the device record. *)
Theorem device_work_handler_cases ret k :
  (state (device k) = STATE_CONNECTED ->
   let k' := device_work_handler ret k in
   state (device k') = STATE_TRANSFERRING /\
   tx_buffer (device k') = command_packet CMD_STATUS 0 [] /\
   transfer_buffer_length (bulk_urb (device k')) = 4 /\
   klog k' = klog k ++
             [EvSpinLock;
              EvSubmitUrb (bulk_urb (device k'))
                (command_packet CMD_STATUS 0 []) ret;
              EvSpinUnlock]) /\
  (state (device k) <> STATE_CONNECTED ->
   device (device_work_handler ret k) = device k /\
   klog (device_work_handler ret k) = klog k ++ [EvSpinLock; EvSpinUnlock]).
Proof.
  split.
  - intros Hst k'. subst k'. unfold device_work_handler. cbv zeta.
    cbn [emit device]. pose proof Hst as Hb. apply state_eqb_eq in Hb.
    rewrite Hb.
    rewrite send_command_not_error by (cbn; rewrite Hst; discriminate).
    cbv zeta. cbn [snd emit device klog]. repeat split.
    by rewrite <- !app_assoc.
  - intros Hst. apply state_eqb_neq in Hst.
    unfold device_work_handler. cbv zeta. cbn [emit device]. rewrite Hst.
    cbn [emit device klog]. split; [done|]. by rewrite <- app_assoc.
Qed.

Lemma device_work_handler_cases_witness :
  let k := with_device (set_state STATE_CONNECTED)
             (advanced_probe 0x81 0x02 64) in
  let idle := advanced_probe 0x81 0x02 64 in
  state (device k) = STATE_CONNECTED /\
  state (device (device_work_handler 0 k)) = STATE_TRANSFERRING /\
  state (device idle) <> STATE_CONNECTED /\
  device (device_work_handler 0 idle) = device idle.
Proof.
  set (k := with_device (set_state STATE_CONNECTED)
              (advanced_probe 0x81 0x02 64)).
  set (idle := advanced_probe 0x81 0x02 64).
  assert (H1 : state (device k) = STATE_CONNECTED) by reflexivity.
  assert (H2 : state (device idle) <> STATE_CONNECTED) by discriminate.
  destruct (device_work_handler_cases 0 k) as (Hc & _).
  destruct (device_work_handler_cases 0 idle) as (_ & Hi).
  destruct (Hc H1) as (R1 & _). destruct (Hi H2) as (R2 & _).
  exact (conj H1 (conj R1 (conj H2 R2))).
Defined.

(** ** Read and write *)

(** X12: [device_read] never changes the device record, and its answer
    never exceeds the 64 bytes of the receive buffer.  On a connected
    device whose [copy_to_user] succeeds it answers [min(count, 64)] and
    hands out exactly that many bytes, the first ones of [rx_buffer];
    when [copy_to_user] leaves bytes uncopied it answers [-EFAULT]. *)
Theorem device_read_cases count nc k :
  let r := device_read count nc k in
  device (snd r) = device k /\
  fst r <= Z.of_nat PACKET_SIZE /\
  (state (device k) = STATE_CONNECTED ->
   (nc <> 0 -> fst r = - EFAULT) /\
   (nc = 0 ->
    let n := Z.min count (Z.of_nat PACKET_SIZE) in
    fst r = n /\
    klog (snd r)
    = klog k ++ [EvCopyToUser (take (Z.to_nat n) (rx_buffer (device k)))] /\
    (0 <= count ->
     length (rx_buffer (device k)) = PACKET_SIZE ->
     Z.of_nat (length (take (Z.to_nat n) (rx_buffer (device k)))) = n))).
Proof.
  cbv zeta. unfold device_read. cbv zeta.
  destruct (state_eqb_spec (state (device k)) STATE_CONNECTED) as [E|E];
    cbn [negb].
  - destruct (Z.eqb_spec nc 0) as [N|N]; cbn [negb fst snd emit device klog].
    + subst nc. rewrite Z.sub_0_r.
      split; [done|]. split; [lia|]. intros _. split; [done|]. intros _.
      split; [done|]. split; [done|].
      intros Hc Hl. rewrite length_take, Hl.
      unfold PACKET_SIZE in *. lia.
    + split; [done|]. split; [unfold EFAULT; lia|]. intros _.
      split; [done|]. intros; done.
  - cbn [fst snd]. split; [done|]. split; [unfold ENODEV; lia|]. done.
Qed.

Lemma device_read_cases_witness :
  let k := with_device (set_state STATE_CONNECTED)
             (advanced_probe 0x81 0x02 64) in
  state (device k) = STATE_CONNECTED /\
  fst (device_read 100 0 k) = 64 /\
  fst (device_read 100 3 k) = - EFAULT.
Proof.
  set (k := with_device (set_state STATE_CONNECTED)
              (advanced_probe 0x81 0x02 64)).
  assert (H : state (device k) = STATE_CONNECTED) by reflexivity.
  destruct (device_read_cases 100 0 k) as (_ & _ & R0).
  destruct (device_read_cases 100 3 k) as (_ & _ & R3).
  destruct (R0 H) as (_ & Rok). destruct (Rok eq_refl) as (Rn & _).
  destruct (R3 H) as (Rerr & _).
  assert (N : 3 <> 0) by discriminate.
  exact (conj H (conj Rn (Rerr N))).
Defined.

(** X13: the failure answers of [device_write] on a connected device.
    When [copy_from_user] leaves bytes uncopied the answer is [-EFAULT],
    nothing is submitted, and the state, the header bytes and the size of
    [tx_buffer] are as before.  When the copy succeeds and the submission
    is refused, the answer is the negative code of [usb_submit_urb], and
    the state is [STATE_TRANSFERRING] all the same. *)
Theorem device_write_failures user count nc ret k :
  state (device k) = STATE_CONNECTED ->
  (nc <> 0 ->
   let r := device_write user count nc ret k in
   fst r = - EFAULT /\
   state (device (snd r)) = STATE_CONNECTED /\
   take HEADER_SIZE (tx_buffer (device (snd r)))
   = take HEADER_SIZE (tx_buffer (device k)) /\
   length (tx_buffer (device (snd r))) = length (tx_buffer (device k)) /\
   klog (snd r)
   = klog k ++ [EvCopyFromUser (Z.min count (Z.of_nat PAYLOAD_SIZE) - nc)]) /\
  (nc = 0 -> ret < 0 ->
   let r := device_write user count nc ret k in
   fst r = ret /\
   state (device (snd r)) = STATE_TRANSFERRING).
Proof.
  intros Hst. pose proof Hst as Hb. apply state_eqb_eq in Hb.
  unfold device_write. rewrite Hb. cbn [negb]. cbv zeta. split.
  - intros N. apply Z.eqb_neq in N. rewrite N. cbn [negb fst snd].
    unfold emit, with_device. cbn [device klog state tx_buffer set_tx_buffer].
    split; [done|]. split; [done|]. split; [|split; [|done]].
    + unfold memcpy_payload. apply list_eq. intros i.
      destruct (decide (i < HEADER_SIZE)%nat) as [Hi|Hi].
      * rewrite !lookup_take_lt by done.
        by rewrite list_lookup_inserts_lt.
      * by rewrite !lookup_take_ge by lia.
    + apply length_memcpy_payload.
  - intros -> Hret. rewrite Z.eqb_refl. cbn [negb].
    rewrite send_command_not_error
      by (cbn; rewrite Hst; discriminate).
    cbv zeta. cbv beta iota.
    assert (Hlt : (ret <? 0) = true) by (apply Z.ltb_lt; lia).
    rewrite Hlt. cbn [fst snd]. done.
Qed.

Lemma device_write_failures_witness :
  let k := with_device (set_state STATE_CONNECTED)
             (advanced_probe 0x81 0x02 64) in
  state (device k) = STATE_CONNECTED /\
  fst (device_write [1; 2; 3] 3 1 0 k) = - EFAULT /\
  fst (device_write [1; 2; 3] 3 0 (- ENOMEM) k) = - ENOMEM.
Proof.
  set (k := with_device (set_state STATE_CONNECTED)
              (advanced_probe 0x81 0x02 64)).
  assert (H : state (device k) = STATE_CONNECTED) by reflexivity.
  destruct (device_write_failures [1; 2; 3] 3 1 0 k H) as (Rf & _).
  destruct (device_write_failures [1; 2; 3] 3 0 (- ENOMEM) k H) as (_ & Rs).
  assert (N : 1 <> 0) by discriminate.
  assert (L : - ENOMEM < 0) by (vm_compute; reflexivity).
  destruct (Rf N) as (R1 & _). destruct (Rs eq_refl L) as (R2 & _).
  exact (conj H (conj R1 R2)).
Defined.

(** ** Control completion *)

Lemma byte_lookup (bs : list Z) i :
  Forall is_byte bs -> is_byte (default 0 (bs !! i)).
Proof.
  intros H. destruct (bs !! i) as [b|] eqn:E; cbn.
  - by eapply Forall_lookup_1.
  - unfold is_byte. lia.
Qed.

Lemma load_u32_range bs : Forall is_byte bs -> 0 <= load_u32 bs < 2 ^ 32.
Proof.
  intros H. unfold load_u32.
  pose proof (byte_lookup bs 0 H) as B0. pose proof (byte_lookup bs 1 H) as B1.
  pose proof (byte_lookup bs 2 H) as B2. pose proof (byte_lookup bs 3 H) as B3.
  unfold is_byte in *. rewrite !Z.shiftl_mul_pow2 by lia.
  change (2 ^ 8) with 256. change (2 ^ 16) with 65536.
  change (2 ^ 24) with 16777216. change (2 ^ 32) with 4294967296. lia.
Qed.

(** X14: [ctrl_complete_callback] touches the control word only.  It
    logs nothing and changes no field other than [ctrl.raw]; with a
    null context or a non-zero status it changes nothing at all; with
    status 0 it loads [ctrl.raw] from the first four bytes of the
    transfer buffer, low byte first, and the value fits in 32 bits
    whenever the buffer holds bytes. *)
Theorem ctrl_complete_callback_cases u k :
  let k' := ctrl_complete_callback u k in
  klog k' = klog k /\
  device k' = set_ctrl_raw (ctrl_raw (device k')) (device k) /\
  (urb_context u = NULL \/ urb_status u <> 0 -> k' = k) /\
  (urb_context u = DEV -> urb_status u = 0 ->
   ctrl_raw (device k') = load_u32 (deref k (transfer_buffer u)) /\
   (Forall is_byte (deref k (transfer_buffer u)) ->
    0 <= ctrl_raw (device k') < 2 ^ 32)).
Proof.
  cbv zeta. unfold ctrl_complete_callback.
  destruct (urb_context u) eqn:Hc.
  - split; [done|]. split; [by destruct k as [[]]|]. split; [done|]. done.
  - destruct (Z.eqb_spec (urb_status u) 0) as [E|E].
    + split; [done|]. split; [done|]. split.
      * intros [?|?]; done.
      * intros _ _. split; [done|]. apply load_u32_range.
    + split; [done|]. split; [by destruct k as [[]]|]. split; [done|]. done.
Qed.

Lemma ctrl_complete_callback_cases_witness :
  let k := advanced_probe 0x81 0x02 64 in
  let u := {| urb_status := 0; urb_context := DEV; urb_pipe := 0;
              transfer_buffer := Extern [0x01; 0x02; 0x03; 0x04];
              transfer_buffer_length := 4; actual_length := 4;
              urb_complete := Some ctrl_complete |} in
  urb_context u = DEV /\
  urb_status u = 0 /\
  ctrl_raw (device (ctrl_complete_callback u k)) = 0x04030201.
Proof.
  set (k := advanced_probe 0x81 0x02 64).
  set (u := {| urb_status := 0; urb_context := DEV; urb_pipe := 0;
               transfer_buffer := Extern [0x01; 0x02; 0x03; 0x04];
               transfer_buffer_length := 4; actual_length := 4;
               urb_complete := Some ctrl_complete |}).
  assert (H1 : urb_context u = DEV) by reflexivity.
  assert (H2 : urb_status u = 0) by reflexivity.
  destruct (ctrl_complete_callback_cases u k) as (_ & _ & _ & R).
  destruct (R H1 H2) as (Rv & _).
  exact (conj H1 (conj H2 Rv)).
Defined.

(** ** Attach *)





End AdvancedDriverProps.

(** * Properties of the asynchronous demo driver *)

Module AsyncDemoProps.
Import Kapi AsyncDemo AsyncDemoHandlers.

(** ** Handlers *)

(** X17: what a handler leaves pending.  When the kernel runs the
    handler of a pending item, a periodic item (delayed work, coarse
    timer, high-resolution timer) is pending again afterwards exactly
    when the running flag is non-zero, and a one-shot item (work,
    tasklet) is not; the coarse timer always queues the tasklet and the
    tasklet always queues the work item, whatever the flag; the handler
    is recorded as run and the device record is not written. *)
Theorem fire_rearms it s :
  pending it s = true ->
  pending it (fire it s) = periodic it && is_running (sdev s) /\
  (it = ItTimer -> pending ItTasklet (fire it s) = true) /\
  (it = ItTasklet -> pending ItWork (fire it s) = true) /\
  ran (fire it s) = ran s ++ [it] /\
  sdev (fire it s) = sdev s.
Proof.
  intros Hp. unfold fire. rewrite Hp.
  destruct it; cbn [set_pending sdev handler_calls];
    unfold demo_work_handler, demo_delayed_work_handler,
      demo_tasklet_handler, demo_timer_callback, demo_hrtimer_callback;
    destruct (is_running (sdev s)); cbn; repeat split; done.
Qed.

Lemma fire_rearms_witness :
  let dev := {| running := 1; kthread := Some 1%positive; irq := 42 |} in
  let s := attached dev [mod_timer 500; hrtimer_start 100;
                         schedule_delayed_work 1000] in
  pending ItTimer s = true /\
  pending ItTimer (fire ItTimer s) = true /\
  pending ItTasklet (fire ItTimer s) = true.
Proof.
  set (dev := {| running := 1; kthread := Some 1%positive; irq := 42 |}).
  set (s := attached dev [mod_timer 500; hrtimer_start 100;
                          schedule_delayed_work 1000]).
  assert (H : pending ItTimer s = true) by reflexivity.
  destruct (fire_rearms ItTimer s H) as (R1 & R2 & _).
  exact (conj H (conj R1 (R2 eq_refl))).
Defined.

Lemma fire_not_pending it s : pending it s = false -> fire it s = s.
Proof. intros H. unfold fire. by rewrite H. Qed.

Lemma fire_sdev it s : sdev (fire it s) = sdev s.
Proof.
  unfold fire. destruct (pending it s); [|done].
  destruct it; cbn [set_pending sdev handler_calls];
    unfold demo_work_handler, demo_delayed_work_handler,
      demo_tasklet_handler, demo_timer_callback, demo_hrtimer_callback;
    destruct (is_running (sdev s)); done.
Qed.

(** X18: while the running flag is set the periodic items keep
    themselves armed: if the flag is non-zero and the coarse timer, the
    high-resolution timer and the delayed work are pending, they are
    still pending after the kernel has run any handlers in any order, and
    the flag is unchanged. *)
Theorem periodic_items_stay_armed its s :
  is_running (sdev s) = true ->
  pend_timer s = true ->
  pend_hrtimer s = true ->
  pend_delayed s = true ->
  let s' := fire_all its s in
  is_running (sdev s') = true /\
  pend_timer s' = true /\ pend_hrtimer s' = true /\ pend_delayed s' = true.
Proof.
  revert s. induction its as [|it its IH]; intros s Hr Ht Hh Hd; [done|].
  cbn [fire_all foldl]. apply IH; [by rewrite fire_sdev|..];
    unfold fire; destruct s as [dev w d t tm h r]; cbn in *; subst;
    destruct it, w, t; cbn;
    unfold demo_work_handler, demo_delayed_work_handler,
      demo_tasklet_handler, demo_timer_callback, demo_hrtimer_callback;
    cbn; rewrite ?Hr; done.
Qed.

Lemma periodic_items_stay_armed_witness :
  let dev := {| running := 1; kthread := Some 1%positive; irq := 42 |} in
  let s := attached dev [mod_timer 500; hrtimer_start 100;
                         schedule_delayed_work 1000] in
  let s' := fire_all [ItTimer; ItTasklet; ItHrtimer; ItWork; ItDelayedWork] s in
  is_running (sdev s) = true /\
  pend_timer s' = true /\ pend_hrtimer s' = true /\ pend_delayed s' = true.
Proof.
  set (dev := {| running := 1; kthread := Some 1%positive; irq := 42 |}).
  set (s := attached dev [mod_timer 500; hrtimer_start 100;
                          schedule_delayed_work 1000]).
  assert (H1 : is_running (sdev s) = true) by reflexivity.
  destruct (periodic_items_stay_armed
              [ItTimer; ItTasklet; ItHrtimer; ItWork; ItDelayedWork] s H1
              eq_refl eq_refl eq_refl) as (_ & R).
  exact (conj H1 R).
Defined.

(** ** Teardown against running handlers *)

Lemma fire_quiet n it s : quiet_upto n s = true -> quiet_upto n (fire it s) = true.
Proof.
  intros H. unfold fire.
  destruct s as [[r kt iq] w d t tm h rn]. unfold quiet_upto in *.
  cbn [sdev running pend_work pend_delayed pend_tasklet pend_timer
       pend_hrtimer] in *.
  destruct (Z.eqb_spec r 0) as [->|]; [|done].
  do 6 (destruct n as [|n]; [destruct it, w, d, t, tm, h; try done|]);
    destruct it, w, d, t, tm, h; done.
Qed.

Lemma fire_all_quiet n its s :
  quiet_upto n s = true -> quiet_upto n (fire_all its s) = true.
Proof.
  revert s. induction its as [|it its IH]; intros s H; [done|].
  cbn [fire_all foldl]. apply IH. by apply fire_quiet.
Qed.

Lemma quiet_upto_5 s :
  quiet_upto 5 s = true -> quiescent s /\ running (sdev s) = 0.
Proof.
  unfold quiet_upto, quiescent. destruct s as [[r kt iq] w d t tm h rn].
  cbn. destruct (Z.eqb_spec r 0); [|done].
  destruct w, d, t, tm, h; try done. intros _. split; [|done].
  by intros [].
Qed.

Lemma fire_all_quiescent its s : quiescent s -> fire_all its s = s.
Proof.
  intros Hq. induction its as [|it its IH]; [done|].
  cbn [fire_all foldl]. by rewrite fire_not_pending.
Qed.

Lemma stop_running s : quiet_upto 0 (do_kcall (atomic_set_running 0) s) = true.
Proof. reflexivity. Qed.

Lemma cancel_raises n c s :
  quiet_upto n s = true ->
  match n, c with
  | 0%nat, hrtimer_cancel
  | 1%nat, del_timer_sync
  | 2%nat, tasklet_kill
  | 3%nat, cancel_work_sync
  | 4%nat, cancel_delayed_work_sync => quiet_upto (S n) (do_kcall c s) = true
  | _, (kthread_stop | wait_for_completion) =>
    quiet_upto n (do_kcall c s) = true
  | _, _ => True
  end.
Proof.
  intros H. destruct s as [[r kt iq] w d t tm h rn].
  unfold quiet_upto in *. cbn in H.
  destruct (Z.eqb_spec r 0) as [->|]; [|done].
  do 5 (destruct n as [|n]; [destruct c, w, d, t, tm, h; try done|]);
    destruct c, w, d, t, tm, h; done.
Qed.

(** X19: [async_demo_remove] leaves nothing behind.  Start from any
    bookkeeping (any items pending, the flag set or not), and let the
    kernel run any handlers, in any order, before each call of the
    teardown: after the last call no item is pending and the running flag
    is 0, and from then on no handler runs, whatever the kernel tries to
    fire. *)
Theorem async_demo_remove_quiesces s gaps later :
  let calls := snd (async_demo_remove (sdev s)) in
  let s' := run_teardown calls gaps s in
  quiescent s' /\
  running (sdev s') = 0 /\
  fire_all later s' = s' /\
  ran (fire_all later s') = ran s'.
Proof.
  cbv zeta.
  assert (H5 : quiet_upto 5
                 (run_teardown (snd (async_demo_remove (sdev s))) gaps s)
               = true).
  { unfold async_demo_remove. cbn [snd kthread].
    destruct (kthread (sdev s)) as [task|]; cbn [app run_teardown].
    - pose proof (stop_running (fire_all (default [] (head gaps)) s)) as Q.
      apply (fire_all_quiet _ (default [] (head (tail gaps)))) in Q.
      apply (cancel_raises 0 kthread_stop) in Q.
      apply (fire_all_quiet _ (default [] (head (tail (tail gaps))))) in Q.
      apply (cancel_raises 0 wait_for_completion) in Q.
      apply (fire_all_quiet _
               (default [] (head (tail (tail (tail gaps)))))) in Q.
      apply (cancel_raises 0 hrtimer_cancel) in Q.
      apply (fire_all_quiet _
               (default [] (head (tail (tail (tail (tail gaps))))))) in Q.
      apply (cancel_raises 1 del_timer_sync) in Q.
      apply (fire_all_quiet _
               (default [] (head (tail (tail (tail (tail (tail gaps))))))))
        in Q.
      apply (cancel_raises 2 tasklet_kill) in Q.
      apply (fire_all_quiet _
               (default []
                  (head (tail (tail (tail (tail (tail (tail gaps)))))))))
        in Q.
      apply (cancel_raises 3 cancel_work_sync) in Q.
      apply (fire_all_quiet _
               (default []
                  (head (tail (tail (tail (tail (tail (tail (tail gaps))))))))))
        in Q.
      apply (cancel_raises 4 cancel_delayed_work_sync) in Q.
      exact Q.
    - pose proof (stop_running (fire_all (default [] (head gaps)) s)) as Q.
      apply (fire_all_quiet _ (default [] (head (tail gaps)))) in Q.
      apply (cancel_raises 0 hrtimer_cancel) in Q.
      apply (fire_all_quiet _ (default [] (head (tail (tail gaps))))) in Q.
      apply (cancel_raises 1 del_timer_sync) in Q.
      apply (fire_all_quiet _
               (default [] (head (tail (tail (tail gaps)))))) in Q.
      apply (cancel_raises 2 tasklet_kill) in Q.
      apply (fire_all_quiet _
               (default [] (head (tail (tail (tail (tail gaps))))))) in Q.
      apply (cancel_raises 3 cancel_work_sync) in Q.
      apply (fire_all_quiet _
               (default [] (head (tail (tail (tail (tail (tail gaps))))))))
        in Q.
      apply (cancel_raises 4 cancel_delayed_work_sync) in Q.
      exact Q. }
  apply quiet_upto_5 in H5 as [Hq Hr].
  split; [exact Hq|]. split; [exact Hr|].
  rewrite fire_all_quiescent by done. done.
Qed.

(** ** The kernel thread *)

Lemma list_pair_ind {A} (P : list A -> Prop) :
  P [] -> (forall a, P [a]) -> (forall a b l, P l -> P (a :: b :: l)) ->
  forall l, P l.
Proof.
  intros H0 H1 H2 l.
  assert (H : P l /\ forall a, P (a :: l)).
  { induction l as [|b l [IH1 IH2]]; [by split|].
    split; [apply IH2|]. intros a. by apply H2. }
  apply H.
Qed.

(** X20: the thread function returns only on a stop request, and
    signals completion exactly once, as its last action.  If every
    answer of [kthread_should_stop] so far is false it has not returned;
    once an answer is true it has returned 0 after some number of rounds
    of work and sleep, at most one round per two answers, followed by
    the one [complete]. *)
Theorem demo_kthread_func_stops answers :
  (demo_kthread_func answers = None <-> Forall (fun a => a = false) answers) /\
  (forall ret evs,
     demo_kthread_func answers = Some (ret, evs) ->
     ret = 0 /\
     exists n,
       evs = thread_rounds n ++ [ThComplete] /\
       (2 * n <= length answers)%nat /\
       ThComplete ∉ thread_rounds n).
Proof.
  induction answers as [|a|a b l [IH1 IH2]] using list_pair_ind.
  - split; [done|]. intros; done.
  - destruct a; cbn.
    + split; [split; [done|by inversion 1]|].
      intros ret evs [= <- <-]. split; [done|]. exists 0%nat.
      split; [done|]. split; [cbn; lia|]. cbn. apply not_elem_of_nil.
    + split; [split; [by repeat constructor|done]|]. intros; done.
  - destruct a.
    + cbn. split.
      * split; [done|]. by inversion 1.
      * intros ret evs [= <- <-]. split; [done|]. exists 0%nat.
        split; [done|]. split; [cbn; lia|]. cbn. apply not_elem_of_nil.
    + destruct b.
      * cbn. split.
        -- split; [done|]. inversion 1 as [|? ? ? Hr]. by inversion Hr.
        -- intros ret evs [= <- <-]. split; [done|]. exists 1%nat.
           split; [done|]. split; [cbn; lia|]. cbn.
           intros Hin. repeat (apply elem_of_cons in Hin as [Hin|Hin];
                               [discriminate|]).
           by apply elem_of_nil in Hin.
      * cbn [demo_kthread_func]. fold demo_kthread_func.
        destruct (demo_kthread_func l) as [[ret0 evs0]|] eqn:E.
        -- split.
           ++ split; [done|]. intros H. exfalso.
              inversion H as [|? ? ? Hr]. inversion Hr as [|? ? ? Hl].
              apply IH1 in Hl. done.
           ++ intros ret evs [= <- <-].
              destruct (IH2 ret0 evs0 eq_refl) as (-> & n & -> & Hn & Hc).
              split; [done|]. exists (S n). split; [done|].
              split; [cbn [length]; lia|].
              cbn. intros Hin.
              repeat (apply elem_of_cons in Hin as [Hin|Hin];
                      [discriminate|]).
              done.
        -- split; [|intros; done].
           split; [|done]. intros _. repeat constructor. by apply IH1.
Qed.

Lemma demo_kthread_func_stops_witness :
  demo_kthread_func [false; false; false; true]
  = Some (0, thread_rounds 2 ++ [ThComplete]) /\
  exists n,
    thread_rounds 2 ++ [ThComplete] = thread_rounds n ++ [ThComplete] /\
    (2 * n <= 4)%nat.
Proof.
  assert (E : demo_kthread_func [false; false; false; true]
              = Some (0, thread_rounds 2 ++ [ThComplete])) by reflexivity.
  destruct (demo_kthread_func_stops [false; false; false; true]) as (_ & H).
  destruct (H _ _ E) as (_ & n & Hn & Hl & _).
  split; [exact E|]. exists n. split; [exact Hn|exact Hl].
Defined.

(** ** Attach *)

(** X21: [async_demo_probe] arms something only when it succeeds.  Given
    that an [IS_ERR] answer of [kthread_run] carries a negative code, the
    probe answers 0 exactly when the allocation and the thread creation
    both succeed; then the running flag is 1 and exactly the coarse
    timer, the high-resolution timer and the delayed work are pending.
    On either failure it has armed nothing, so there is nothing to tear
    down. *)
Theorem async_demo_probe_arms alloc_ok thread :
  (forall err, thread = inr err -> err < 0) ->
  let '(ret, dev, calls) := async_demo_probe alloc_ok thread in
  (ret = 0 <-> alloc_ok = true /\ exists task, thread = inl task) /\
  (ret <> 0 -> ret < 0 /\ calls = []) /\
  (ret = 0 ->
   exists d,
     dev = Some d /\ running d = 1 /\ is_Some (kthread d) /\
     forall it,
       pending it (attached d calls)
       = match it with
         | ItTimer | ItHrtimer | ItDelayedWork => true
         | ItWork | ItTasklet => false
         end).
Proof.
  intros Herr. unfold async_demo_probe.
  destruct alloc_ok; cbn [negb].
  - destruct thread as [task|err].
    + split; [split; [eauto|done]|]. split; [done|]. intros _.
      eexists. split; [reflexivity|]. split; [done|]. split; [by eexists|].
      by intros [].
    + pose proof (Herr err eq_refl) as Hneg.
      split; [split; [lia|intros (_ & t & ?); done]|].
      split; [done|]. lia.
  - split; [split; [done|intros (? & _); done]|].
    split; [intros _; split; [unfold AdvancedDriver.ENOMEM; lia|done]|].
    done.
Qed.

Lemma async_demo_probe_arms_witness :
  (forall err, @inl positive Z 7%positive = inr err -> err < 0) /\
  let '(ret, dev, calls) := async_demo_probe true (inl 7%positive) in
  ret = 0 /\ pending ItTimer (attached
                                {| running := 1; kthread := Some 7%positive;
                                   irq := 0 |} calls) = true.
Proof.
  assert (H : forall err, @inl positive Z 7%positive = inr err -> err < 0)
    by (intros err E; discriminate E).
  pose proof (async_demo_probe_arms true (inl 7%positive) H) as R.
  cbn in R. destruct R as (_ & _ & R).
  destruct (R eq_refl) as (d & Hd & _ & _ & Hp).
  injection Hd as <-.
  split; [exact H|]. cbn. split; [reflexivity|]. exact (Hp ItTimer).
Defined.

End AsyncDemoProps.
